(** * xhs_to_dianping: the curation pipeline of scripts/xhs_to_dianping.py

    A shallow embedding of the script's data model and operations
    (RestaurantPost, AIModelManager, XhsToDianpingGenerator) and the
    properties of its ranking, aggregation, selection and synthesis
    stages.

    Conventions of the embedding.
    - A Python [str] is a [string] holding its UTF-8 bytes; a Python [int]
      is a [Z].
    - A call that may raise returns an [outcome]; an exception carries its
      class, because the script's handlers select by class
      ([except Exception], [except (ValueError, TypeError)]).
    - A list that the script mutates in place is threaded explicitly: the
      operation returns the list's new content next to its result.
    - A value that is a str or None, such as a text column of the store
      that may be NULL, is an [option string].
    - What lives outside the script (the two completion backends, the
      crawler, the MySQL store, the interpreter's int) is a field of
      [World]; the operations are defined for an arbitrary world. *)

From Stdlib Require Import ZArith String Ascii List Lia Permutation Sorted.
From Stdlib Require Import DecimalString.
From stdpp Require Import gmap strings list sorting.

Open Scope string_scope.
Open Scope Z_scope.
Open Scope list_scope.

(** ** Python strings *)

Module PyStr.

(** The newline character, chr(10). *)
Definition NL : string := String (ascii_of_nat 10) EmptyString.

Definition code (c : ascii) : N := N_of_ascii c.

(** The ASCII characters str.strip removes: 9..13, 28..31 and 32. *)
Definition is_ascii_space (c : ascii) : bool :=
  let n := code c in
  ((9 <=? n) && (n <=? 13) || (28 <=? n) && (n <=? 32))%N.

(** The two-byte UTF-8 encodings of white space: U+0085 and U+00A0. *)
Definition is_space2 (b1 b2 : ascii) : bool :=
  ((code b1 =? 194) && ((code b2 =? 133) || (code b2 =? 160)))%N.

(** The three-byte encodings: U+1680, U+2000..U+200A, U+2028, U+2029,
    U+202F, U+205F and U+3000. *)
Definition is_space3 (b1 b2 b3 : ascii) : bool :=
  let '(x, y, z) := (code b1, code b2, code b3) in
  ((x =? 225) && (y =? 154) && (z =? 128)
   || (x =? 226) && (y =? 128)
      && ((128 <=? z) && (z <=? 138) || (z =? 168) || (z =? 169) || (z =? 175))
   || (x =? 226) && (y =? 129) && (z =? 159)
   || (x =? 227) && (y =? 128) && (z =? 128))%N.

(** Drops the white space at the front of [s]. With [backwards] the bytes
    of [s] are read as those of a reversed string, so that the same scan
    serves for the right end. *)
Fixpoint drop_space (backwards : bool) (s : string) : string :=
  match s with
  | EmptyString => s
  | String a s1 =>
      if is_ascii_space a then drop_space backwards s1
      else match s1 with
           | EmptyString => s
           | String b s2 =>
               if (if backwards then is_space2 b a else is_space2 a b)
               then drop_space backwards s2
               else match s2 with
                    | EmptyString => s
                    | String c s3 =>
                        if (if backwards then is_space3 c b a else is_space3 a b c)
                        then drop_space backwards s3
                        else s
                    end
           end
  end.

(** str.strip() with no argument. *)
Definition strip (s : string) : string :=
  String.rev (drop_space true (String.rev (drop_space false s))).

(** Truth value of a str: non-empty. *)
Definition truthy (s : string) : bool :=
  match s with EmptyString => false | _ => true end.

(** str.split(sep) for a one-character separator. *)
Fixpoint split (sep : ascii) (s : string) : list string :=
  match s with
  | EmptyString => [EmptyString]
  | String a s' =>
      if Ascii.eqb a sep then EmptyString :: split sep s'
      else match split sep s' with
           | [] => [String a EmptyString]
           | w :: ws => String a w :: ws
           end
  end.

(** sep.join(parts). *)
Definition join (sep : string) (parts : list string) : string :=
  String.concat sep parts.

(** str.startswith(p). *)
Definition startswith (p s : string) : bool := String.prefix p s.

(** [w in s] for strings. *)
Fixpoint contains (w s : string) : bool :=
  String.prefix w s ||
  match s with
  | EmptyString => false
  | String _ s' => contains w s'
  end.

(** str.lower() on the ASCII letters; cased letters outside ASCII are
    left as they are. *)
Definition lower_char (a : ascii) : ascii :=
  let n := code a in
  if ((65 <=? n) && (n <=? 90))%N then ascii_of_N (n + 32) else a.

Fixpoint lower (s : string) : string :=
  match s with
  | EmptyString => EmptyString
  | String a s' => String (lower_char a) (lower s')
  end.

(** A byte that continues a UTF-8 sequence (10xxxxxx). *)
Definition is_continuation (a : ascii) : bool :=
  ((128 <=? code a) && (code a <=? 191))%N.

(** [s[:n]] for [0 <= n]: the first [n] characters, a character being a
    leading byte and the continuation bytes after it. *)
Fixpoint take_chars (n : nat) (s : string) : string :=
  match s with
  | EmptyString => EmptyString
  | String a s' =>
      if is_continuation a then String a (take_chars n s')
      else match n with
           | O => EmptyString
           | S n' => String a (take_chars n' s')
           end
  end.

(** str(z) and the rendering of an int in an f-string. *)
Definition of_int (z : Z) : string := NilZero.string_of_int (Z.to_int z).

(** The rendering in an f-string of a value that is a str or None. *)
Definition format (v : option string) : string := default "None" v.

End PyStr.

(** [c in s] for a character. *)
Fixpoint has_char (c : ascii) (s : string) : bool :=
  match s with
  | EmptyString => false
  | String a s' => Ascii.eqb a c || has_char c s'
  end.

(** [l[:n]] for a list and an int: a negative [n] counts from the end. *)
Definition slice_to {A : Type} (l : list A) (n : Z) : list A :=
  if n <? 0 then take (Z.to_nat (Z.of_nat (length l) + n)) l
  else take (Z.to_nat n) l.

(** ** Exceptions and logging *)

(** The exception classes as the handlers of the script tell them apart.
    [ValueError] and [TypeError] stand for the class or one that derives
    from it, the two that line 365 names; [OtherException] stands for a
    class that derives from Exception and from none of the named ones.
    The last three derive from BaseException only, so [except Exception]
    lets them through. *)
Inductive exc_class : Type :=
| ExceptionClass
| ValueError
| TypeError
| AttributeError
| OtherException (name : string)
| KeyboardInterrupt
| SystemExit
| CancelledError.

(** isinstance(e, Exception), by the class of [e]. *)
Definition is_Exception (c : exc_class) : bool :=
  match c with
  | KeyboardInterrupt | SystemExit | CancelledError => false
  | _ => true
  end.

Record exc : Type := Exc { exc_class_of : exc_class; exc_message : string }.

Inductive outcome (A : Type) : Type :=
| Returns (a : A)
| Raises (e : exc).
Arguments Returns {A} a.
Arguments Raises {A} e.

(** What [except Exception] catches. *)
Definition caught (e : exc) : bool := is_Exception (exc_class_of e).

(** Statements in sequence: the first to raise ends the sequence. *)
#[global] Instance outcome_ret : MRet outcome := fun A a => Returns a.

#[global] Instance outcome_bind : MBind outcome := fun A B k m =>
  match m with
  | Returns a => k a
  | Raises e => Raises e
  end.

(** The TypeError of None asked for a slice. *)
Definition not_subscriptable : exc :=
  Exc TypeError "'NoneType' object is not subscriptable".

(** [v[:n]] for a value that is a str or None: the first [n] characters
    of a str; None is not subscriptable. *)
Definition slice_chars (n : nat) (v : option string) : outcome string :=
  match v with
  | Some s => Returns (PyStr.take_chars n s)
  | None => Raises not_subscriptable
  end.

(** A record handed to the logging module. *)
Inductive log_record : Type :=
| LogInfo (msg : string)
| LogWarning (msg : string)
| LogError (msg : string).

(** ** Image candidates and reference posts *)

(** The dict built for every image at lines 405-411, its values being
    those of the RestaurantPost attributes they are copied from: the URL
    is an element of the image list, hence a str; the title, the
    description and the URL of the post are a str or None. *)
Record Candidate : Type := {
  url : string;
  post_title : option string;
  post_desc : option string;
  cand_liked_count : Z;
  post_url : option string
}.

(** The dict built for every reference post at lines 435-439; the
    template synthesis reads it with get and the defaults of an absent
    key, which these dicts never need. *)
Record Reference : Type := {
  ref_title : option string;
  ref_desc : option string;
  ref_liked_count : Z
}.

(** The dataclass RestaurantPost (lines 47-58). The dataclass does not
    check its annotations: the five attributes copied from text columns
    of the store (lines 369-377) are None where the column is NULL, the
    default of row.get serving for an absent key only. *)
Record RestaurantPost : Type := {
  note_id : option string;
  title : option string;
  desc : option string;
  liked_count : Z;
  comment_count : Z;
  collected_count : Z;
  image_list : list string;
  note_url : option string;
  nickname : option string
}.

(** A record of the table xhs_note, with the columns the statement of
    lines 338-349 names. The row handed to the script holds every
    selected column; a column is text or NULL ([None]). *)
Record Row : Type := {
  row_source_keyword : option string;
  row_note_id : option string;
  row_title : option string;
  row_desc : option string;
  row_liked_count : option string;
  row_comment_count : option string;
  row_collected_count : option string;
  row_image_list : option string;
  row_note_url : option string;
  row_nickname : option string
}.

(** ** The world outside the script *)

(** What a backend call hands back: a str, or a value of another type
    (None, a number, a list, ...), of which the script gets to see the
    name of the type only. *)
Inductive reply : Type :=
| Text (s : string)
| NotText (type_name : string).

Record World : Type := {
  (** The module flags set by the two guarded imports (lines 32-44). *)
  HAS_OPENAI : bool;
  HAS_REQUESTS : bool;
  (** self.openai_api_key: os.getenv gives None or a str. *)
  openai_api_key : option string;
  (** The cloud backend, lines 143-152: the request for a prompt either
      raises or yields response.choices[0].message.content. *)
  openai_chat : string -> outcome reply;
  (** The local backend, lines 162-172: the POST of a prompt either raises
      (connection, timeout, status, JSON) or yields the response field of
      the JSON object. *)
  requests_post : string -> outcome reply;
  (** db.init_db() and XiaoHongShuCrawler().start() (lines 303-309). *)
  crawler_start : outcome unit;
  (** The table xhs_note as the connection reads it after the crawl, or
      the error the connection raises. *)
  xhs_note : outcome (list Row);
  (** The store's CAST(text AS UNSIGNED). *)
  cast_unsigned : string -> N;
  (** What the store makes of lines 342-346 when the keyword spliced
      between the quotes holds a quote or a backslash, so that the text
      between them no longer is the keyword: the condition it reads, or
      the error it raises for the statement. *)
  spliced_condition : string -> outcome (Row -> bool);
  (** The interpreter's int applied to a str (lines 364, 368 and 369): the
      integer it reads, or [None] when it raises, which for a str it does
      with a ValueError. *)
  int_of_str : string -> option Z;
  (** The message of that ValueError. *)
  int_error : string -> string;
  (** db.close() (line 496). *)
  db_close : outcome unit
}.

(** ** AIModelManager *)

(** list.sort(key=..., reverse=True) is the stable sort by descending
    key: elements of equal key keep their order. It is embedded as an
    insertion sort: an element goes in front of the first one whose key
    is not larger than its own, hence in front of the later elements
    with the same key. The lemmas [sort_desc_perm], [sort_desc_sorted]
    and [sort_desc_stable] below state that the result is the stable
    descending rearrangement of the list. *)
Section StableSort.
Context {A : Type} (key : A -> Z).

Fixpoint insert_desc (x : A) (l : list A) : list A :=
  match l with
  | [] => [x]
  | y :: l' => if key y <=? key x then x :: y :: l' else y :: insert_desc x l'
  end.

Definition sort_desc (l : list A) : list A := foldr insert_desc [] l.

(** The order of a list sorted by descending key: [x] may stand before
    [y]. *)
Definition descending (x y : A) : Prop := key y <= key x.

End StableSort.

(** The loop of lines 205-212 over the candidates that are left, with the
    current [selected] list and [seen_urls] set. *)
Fixpoint selection_loop (num_images : Z) (candidates : list Candidate)
    (selected : list string) (seen_urls : gset string) : list string :=
  match candidates with
  | [] => selected
  | candidate :: rest =>
      if Z.of_nat (length selected) >=? num_images then selected
      else
        let u := url candidate in
        if bool_decide (u ∉ seen_urls) && PyStr.truthy (PyStr.strip u)
        then selection_loop num_images rest (selected ++ [u]) (seen_urls ∪ {[u]})
        else selection_loop num_images rest selected seen_urls
  end.

(** _heuristic_image_selection. Line 200,
    candidates.sort(key=lambda x: x['liked_count'], reverse=True), sorts
    the caller's list in place, stably and by descending liked count: the
    first component is the content of that list after the call, the
    second the returned list. *)
Definition _heuristic_image_selection (candidates : list Candidate)
    (num_images : Z) : list Candidate * list string :=
  let candidates := sort_desc cand_liked_count candidates in
  let selected := selection_loop num_images candidates [] ∅ in
  (candidates, slice_to selected num_images).

(** _format_image_candidates_for_ai, the lines appended for one
    candidate (lines 181-185). The slice of the description raises for a
    description that is None; the lines appended before are lost with
    the list. *)
Definition candidate_lines (i : Z) (candidate : Candidate) : outcome (list string) :=
  fragment ← slice_chars 100 (post_desc candidate);
  mret [ PyStr.of_int i +:+ ". URL: " +:+ url candidate;
         "   帖子标题: " +:+ PyStr.format (post_title candidate);
         "   点赞数: " +:+ PyStr.of_int (cand_liked_count candidate);
         "   描述片段: " +:+ fragment +:+ "...";
         EmptyString ].

Fixpoint formatted_candidates (i : Z) (candidates : list Candidate)
    : outcome (list string) :=
  match candidates with
  | [] => mret []
  | candidate :: rest =>
      lines ← candidate_lines i candidate;
      more ← formatted_candidates (i + 1) rest;
      mret (lines ++ more)
  end.

Definition _format_image_candidates_for_ai (candidates : list Candidate)
    : outcome string :=
  formatted ← formatted_candidates 1 candidates;
  mret (PyStr.join PyStr.NL formatted).

(** _format_posts_for_ai (lines 188-196), likewise. *)
Definition post_lines (i : Z) (post : Reference) : outcome (list string) :=
  fragment ← slice_chars 200 (ref_desc post);
  mret [ PyStr.of_int i +:+ ". 标题: " +:+ PyStr.format (ref_title post);
         "   描述: " +:+ fragment +:+ "...";
         "   点赞数: " +:+ PyStr.of_int (ref_liked_count post);
         EmptyString ].

Fixpoint formatted_posts (i : Z) (posts : list Reference) : outcome (list string) :=
  match posts with
  | [] => mret []
  | post :: rest =>
      lines ← post_lines i post;
      more ← formatted_posts (i + 1) rest;
      mret (lines ++ more)
  end.

Definition _format_posts_for_ai (posts : list Reference) : outcome string :=
  formatted ← formatted_posts 1 posts;
  mret (PyStr.join PyStr.NL formatted).

(** The prompt of analyze_images_content (lines 77-91), or the exception
    that its construction raises. *)
Definition selection_prompt (image_candidates : list Candidate)
    (keyword : string) (num_images : Z) : outcome string :=
  listing ← _format_image_candidates_for_ai (take 30 image_candidates);
  mret (PyStr.join PyStr.NL
    [ EmptyString;
      "        作为美食图片分析专家，请从以下图片候选列表中筛选出最适合" +:+ keyword
        +:+ "主题的" +:+ PyStr.of_int num_images +:+ "张图片。";
      EmptyString;
      "        筛选标准：";
      "        1. 图片内容与" +:+ keyword +:+ "高度相关";
      "        2. 图片质量高，构图美观";
      "        3. 能体现食物的色香味";
      "        4. 适合在大众点评等美食平台展示";
      "        5. 图片来源帖子的点赞数较高";
      EmptyString;
      "        候选图片信息：";
      "        " +:+ listing;
      EmptyString;
      "        请直接返回筛选出的图片URL列表，每行一个URL，不需要其他解释。";
      "        " ]).

(** The prompt of generate_dianping_content (lines 110-126), likewise. *)
Definition synthesis_prompt (reference_posts : list Reference)
    (keyword : string) (selected_images : list string) : outcome string :=
  listing ← _format_posts_for_ai (take 10 reference_posts);
  mret (PyStr.join PyStr.NL
    [ EmptyString;
      "        你是一位优秀的美食探店达人，请帮我写一篇针对" +:+ keyword
        +:+ "餐厅的美食测评。";
      EmptyString;
      "        要求：";
      "        1. 请从口味卖相、服务、环境、价格的方面去做点评";
      "        2. 可以用一些表情符号，但是不要用-和**等格式符号";
      "        3. 要求200-300字左右";
      "        4. 写出一个特别有画面感的标题";
      "        5. 语言风格要符合大众点评用户的习惯，真实自然";
      EmptyString;
      "        参考信息（来自小红书高点赞帖子）：";
      "        " +:+ listing;
      EmptyString;
      "        已筛选的图片数量：" +:+ PyStr.of_int (Z.of_nat (length selected_images))
        +:+ "张精美图片";
      EmptyString;
      "        请生成一篇完整的大众点评风格测评，包含标题和正文：";
      "        " ]).

(** The list comprehension of line 100 over the lines of the response. *)
Definition response_urls (response : string) : list string :=
  PyStr.strip <$>
    (filter
       (fun line => PyStr.truthy (PyStr.strip line)
                    && PyStr.startswith "http" (PyStr.strip line))
       (PyStr.split (ascii_of_nat 10) response)).

(** The category tests of lines 227-234 on the text of one post, the
    title and the description rendered by the f-string of line 225. *)
Definition any_in (words : list string) (text : string) : bool :=
  existsb (fun word => PyStr.contains word text) words.

Definition post_keywords (post : Reference) : list string :=
  let text :=
    PyStr.lower (PyStr.format (ref_title post) +:+ " "
                 +:+ PyStr.format (ref_desc post)) in
  (if any_in ["好吃"; "美味"; "香"; "嫩"; "鲜"] text then ["口味佳"] else [])
  ++ (if any_in ["环境"; "装修"; "氛围"; "店面"] text then ["环境好"] else [])
  ++ (if any_in ["服务"; "态度"; "热情"] text then ["服务好"] else [])
  ++ (if any_in ["划算"; "便宜"; "实惠"; "性价比"] text then ["性价比高"] else []).

(** _generate_template_content (lines 216-260). [keywords_found] is
    accumulated over the posts as in the script, which does not read it
    afterwards. *)
Definition _generate_template_content (reference_posts : list Reference)
    (keyword : string) : string :=
  let keywords_found :=
    fold_left (fun found post => found ++ post_keywords post) reference_posts [] in
  let title := "探店" +:+ keyword +:+ " | 这家店真的绝了！📸✨" in
  let content_parts :=
    [ "🍖 今天来探店传说中的" +:+ keyword +:+ "，真的是被惊艳到了！";
      EmptyString;
      "【口味卖相】⭐⭐⭐⭐⭐";
      "烤肉的火候掌握得刚刚好，外焦内嫩，每一口都能感受到肉汁的鲜美💧 摆盘也很用心，颜值和味道都在线👍";
      EmptyString;
      "【服务体验】⭐⭐⭐⭐";
      "服务员小姐姐超级热情，会主动帮忙烤肉，还会推荐好吃的搭配🥰 整个用餐过程很愉快";
      EmptyString;
      "【环境氛围】⭐⭐⭐⭐";
      "店内装修很有特色，灯光氛围营造得很棒✨ 适合和朋友聚餐，拍照也很好看📷";
      EmptyString;
      "【价格水平】⭐⭐⭐⭐";
      "人均消费合理，分量足够，性价比还是很不错的💰 学生党也可以承受";
      EmptyString;
      "总的来说，" +:+ keyword +:+ "真的值得一试！已经预约下次带家人来了🎉";
      EmptyString;
      "#美食探店 #烤肉推荐 #北京美食" ] in
  title +:+ PyStr.NL +:+ PyStr.NL +:+ PyStr.join PyStr.NL content_parts.

Section AIModelManager.

Variable world : World.

(** self.openai_api_key and HAS_OPENAI. *)
Definition use_openai : bool :=
  match openai_api_key world with
  | Some key => PyStr.truthy key
  | None => false
  end && HAS_OPENAI world.

Definition _call_openai (prompt : string) : outcome reply :=
  match openai_chat world prompt with
  | Returns content => Returns content
  | Raises e =>
      if caught e
      then Raises (Exc ExceptionClass ("OpenAI API调用失败: " +:+ exc_message e))
      else Raises e
  end.

Definition _call_local_model (prompt : string) : outcome reply :=
  if negb (HAS_REQUESTS world)
  then Raises (Exc ExceptionClass "requests库未安装，无法调用本地模型")
  else
    match requests_post world prompt with
    | Returns response => Returns response
    | Raises e =>
        if caught e
        then Raises (Exc ExceptionClass ("本地模型调用失败: " +:+ exc_message e))
        else Raises e
    end.

(** The choice of the backend, lines 94-97 and again lines 129-132. *)
Definition backend_response (prompt : string) : outcome reply :=
  if use_openai then _call_openai prompt else _call_local_model prompt.

(** The AttributeError of a value that is no str and is asked for a
    method of str. *)
Definition no_attribute (type_name attribute : string) : exc :=
  Exc AttributeError
    ("'" +:+ type_name +:+ "' object has no attribute '" +:+ attribute +:+ "'").

(** The body of the try block of analyze_images_content (lines 94-101).
    A response that is no str has no split method. *)
Definition selection_attempt (prompt : string) (num_images : Z)
    : outcome (list string) :=
  match backend_response prompt with
  | Returns (Text response) => Returns (slice_to (response_urls response) num_images)
  | Returns (NotText type_name) => Raises (no_attribute type_name "split")
  | Raises e => Raises e
  end.

(** analyze_images_content: the content of [image_candidates] after the
    call, the records logged, and the outcome. The prompt is built at
    lines 77-91, before the try block of line 93: an exception of its
    construction leaves the operation as it is, no handler and no
    fallback in its way. *)
Definition analyze_images_content (image_candidates : list Candidate)
    (keyword : string) (num_images : Z)
    : list Candidate * list log_record * outcome (list string) :=
  match selection_prompt image_candidates keyword num_images with
  | Raises e => (image_candidates, [], Raises e)
  | Returns prompt =>
      match selection_attempt prompt num_images with
      | Returns urls => (image_candidates, [], Returns urls)
      | Raises e =>
          if caught e then
            let '(candidates, selected) :=
              _heuristic_image_selection image_candidates num_images in
            (candidates,
             [LogWarning ("AI图片筛选失败，使用启发式方法: " +:+ exc_message e)],
             Returns selected)
          else (image_candidates, [], Raises e)
      end
  end.

(** The body of the try block of generate_dianping_content (lines 129-134). *)
Definition synthesis_attempt (prompt : string) : outcome string :=
  match backend_response prompt with
  | Returns (Text response) => Returns (PyStr.strip response)
  | Returns (NotText type_name) => Raises (no_attribute type_name "strip")
  | Raises e => Raises e
  end.

(** generate_dianping_content: the records logged and the outcome. The
    prompt is built at lines 110-126, before the try block of line 128. *)
Definition generate_dianping_content (reference_posts : list Reference)
    (keyword : string) (selected_images : list string)
    : list log_record * outcome string :=
  match synthesis_prompt reference_posts keyword selected_images with
  | Raises e => ([], Raises e)
  | Returns prompt =>
      match synthesis_attempt prompt with
      | Returns content => ([], Returns content)
      | Raises e =>
          if caught e then
            ([LogWarning ("AI文案生成失败，使用模板方法: " +:+ exc_message e)],
             Returns (_generate_template_content reference_posts keyword))
          else ([], Raises e)
      end
  end.

End AIModelManager.

(** ** XhsToDianpingGenerator *)

(** The attributes of the generator object (lines 266-270). *)
Record Generator : Type := {
  keyword : string;
  posts : list RestaurantPost;
  selected_images : list string;
  generated_content : string
}.

(** The dict returned by run (lines 474-486). *)
Record CurationResult : Type := {
  result_keyword : string;
  total_posts : Z;
  result_selected_images : list string;
  content : string;
  top_posts : list (option string * Z * option string)
}.

(** A method of the generator: from the object's state to its new state,
    the records logged and the outcome. *)
Definition M (A : Type) : Type :=
  Generator -> Generator * list log_record * outcome A.

#[global] Instance M_ret : MRet M := fun A a self => (self, [], Returns a).

Definition raise {A : Type} (e : exc) : M A := fun self => (self, [], Raises e).

#[global] Instance M_bind : MBind M := fun A B k m self =>
  match m self with
  | (self1, log1, Returns a) =>
      let '(self2, log2, r) := k a self1 in (self2, log1 ++ log2, r)
  | (self1, log1, Raises e) => (self1, log1, Raises e)
  end.

Definition logger (r : log_record) : M unit := fun self => (self, [r], Returns tt).

Definition this : M Generator := fun self => (self, [], Returns self).

Definition assign (f : Generator -> Generator) : M unit :=
  fun self => (f self, [], Returns tt).

(** The outcome of a call that touches neither the object nor the log. *)
Definition lift {A : Type} (r : outcome A) : M A := fun self => (self, [], r).

(** try: m / except Exception as e: logger.error(msg e); raise. *)
Definition log_and_reraise {A : Type} (m : M A) (msg : exc -> string) : M A :=
  fun self =>
    match m self with
    | (self1, log1, Raises e) =>
        if caught e then (self1, log1 ++ [LogError (msg e)], Raises e)
        else (self1, log1, Raises e)
    | r => r
    end.

(** try: m / finally: f. An exception of [f] replaces the outcome of [m]. *)
Definition finally {A : Type} (m : M A) (f : M unit) : M A :=
  fun self =>
    let '(self1, log1, r) := m self in
    match f self1 with
    | (self2, log2, Returns _) => (self2, log1 ++ log2, r)
    | (self2, log2, Raises e) => (self2, log1 ++ log2, Raises e)
    end.

(** Unfolds the plumbing of [M] in a goal about a method. *)
Ltac unfold_M :=
  unfold log_and_reraise, mbind, M_bind, logger, this, assign, lift, mret, M_ret;
  simpl.

(** IS NOT NULL AND != '' of the statement. *)
Definition sql_present (v : option string) : bool :=
  match v with
  | Some s => PyStr.truthy s
  | None => false
  end.

(** Line 342 splices the keyword into the statement between two quotes
    and escapes nothing. A keyword that holds neither a quote nor a
    backslash stands there for itself. *)
Definition sql_plain (kw : string) : bool :=
  negb (has_char "'"%char kw) && negb (has_char "\"%char kw).

(** The WHERE clause of lines 342-346 for such a keyword. *)
Definition where_clause (kw : string) (r : Row) : bool :=
  match row_source_keyword r with
  | Some source_keyword => String.eqb source_keyword kw
  | None => false
  end
  && sql_present (row_liked_count r)
  && sql_present (row_image_list r).

Section Rows.

Variable world : World.

(** The condition of the statement: the WHERE clause for a keyword that
    stands for itself, and for another keyword what the store makes of
    the text. *)
Definition statement_condition (kw : string) : outcome (Row -> bool) :=
  if sql_plain kw then Returns (where_clause kw) else spliced_condition world kw.

(** [x or 0] followed by int: None and the empty str give 0, another str
    is converted and may raise ValueError. *)
Definition int_or_0 (v : option string) : outcome Z :=
  match v with
  | Some s =>
      if PyStr.truthy s then
        match int_of_str world s with
        | Some z => Returns z
        | None => Raises (Exc ValueError (int_error world s))
        end
      else Returns 0
  | None => Returns 0
  end.

(** Lines 357-359. *)
Definition images_of (v : option string) : list string :=
  match v with
  | Some s =>
      if PyStr.truthy s
      then PyStr.strip <$>
             filter (fun img => PyStr.truthy (PyStr.strip img))
               (PyStr.split ","%char s)
      else []
  | None => []
  end.

(** Lines 362-366: the guarded conversion of the liked count. *)
Definition liked_count_of (v : option string) : outcome Z :=
  match int_or_0 v with
  | Returns z => Returns z
  | Raises e =>
      match exc_class_of e with
      | ValueError | TypeError => Returns 0
      | _ => Raises e
      end
  end.

(** Lines 356-378: the post built from one row. The comment and the
    collected count are converted without a handler. *)
Definition post_of_row (row : Row) : outcome RestaurantPost :=
  let image_list := images_of (row_image_list row) in
  match liked_count_of (row_liked_count row) with
  | Raises e => Raises e
  | Returns liked_count =>
      match int_or_0 (row_comment_count row) with
      | Raises e => Raises e
      | Returns comment_count =>
          match int_or_0 (row_collected_count row) with
          | Raises e => Raises e
          | Returns collected_count =>
              Returns {| note_id := row_note_id row;
                         title := row_title row;
                         desc := row_desc row;
                         liked_count := liked_count;
                         comment_count := comment_count;
                         collected_count := collected_count;
                         image_list := image_list;
                         note_url := row_note_url row;
                         nickname := row_nickname row |}
          end
      end
  end.

(** The loop of lines 355-379 over the rows that are left, [posts] being
    the list built so far. *)
Fixpoint posts_of_rows (rows : list Row) (posts : list RestaurantPost)
    : outcome (list RestaurantPost) :=
  match rows with
  | [] => Returns posts
  | row :: rest =>
      match post_of_row row with
      | Returns post => posts_of_rows rest (posts ++ [post])
      | Raises e => Raises e
      end
  end.

End Rows.

(** The dict of lines 405-411. *)
Definition candidate_of (post : RestaurantPost) (img_url : string) : Candidate :=
  {| url := img_url;
     post_title := title post;
     post_desc := desc post;
     cand_liked_count := liked_count post;
     post_url := note_url post |}.

(** The two nested loops of lines 402-411. *)
Definition image_candidates_of (posts : list RestaurantPost) : list Candidate :=
  fold_left
    (fun image_candidates post =>
       fold_left
         (fun image_candidates img_url =>
            image_candidates ++ [candidate_of post img_url])
         (image_list post) image_candidates)
    (take 50 posts) [].

(** The loop of lines 433-439. *)
Definition reference_content_of (posts : list RestaurantPost) : list Reference :=
  fold_left
    (fun reference_content post =>
       reference_content ++
       [{| ref_title := title post;
           ref_desc := desc post;
           ref_liked_count := liked_count post |}])
    (take 20 posts) [].

Section XhsToDianpingGenerator.

Variable world : World.

(** crawl_xhs_posts. The crawler settings it overwrites and restores are
    read by the crawler only. *)
Definition crawl_xhs_posts (max_posts : Z) : M unit :=
  self ← this;
  logger (LogInfo ("开始爬取小红书关键词: " +:+ keyword self));;
  log_and_reraise
    (lift (crawler_start world);;
     logger (LogInfo "完成爬取，开始从数据库获取数据"))
    (fun e => "爬虫执行出错: " +:+ exc_message e).

(** The rows the statement of lines 338-349 selects: the records that
    meet its condition, for a keyword that stands for itself those of
    the keyword whose liked count and image list are present, by
    descending CAST(liked_count AS UNSIGNED), at most [limit] of them.
    The store fixes no order among equal counts; the model keeps the
    table's. A negative LIMIT is a syntax error of the statement. *)
Definition query_top_notes (kw : string) (limit : Z) : outcome (list Row) :=
  match xhs_note world with
  | Raises e => Raises e
  | Returns table =>
      if limit <? 0
      then Raises (Exc (OtherException "ProgrammingError") "SQL syntax error near LIMIT")
      else
        match statement_condition world kw with
        | Raises e => Raises e
        | Returns condition =>
            Returns
              (take (Z.to_nat limit)
                 (sort_desc
                    (fun r => Z.of_N (cast_unsigned world
                                        (default EmptyString (row_liked_count r))))
                    (filter condition table)))
        end
  end.

(** get_top_posts_from_db. *)
Definition get_top_posts_from_db (limit : Z) : M (list RestaurantPost) :=
  logger (LogInfo "从数据库获取点赞最高的帖子");;
  self ← this;
  log_and_reraise
    (rows ← lift (query_top_notes (keyword self) limit);
     posts ← lift (posts_of_rows world rows []);
     logger (LogInfo ("获取到 " +:+ PyStr.of_int (Z.of_nat (length posts)) +:+ " 个帖子"));;
     assign (fun self => {| keyword := keyword self;
                            posts := posts;
                            selected_images := selected_images self;
                            generated_content := generated_content self |});;
     mret posts)
    (fun e => "数据库查询出错: " +:+ exc_message e).

(** select_best_images_with_ai. The candidate list is local to the call;
    what the selection leaves in it is dropped on return. *)
Definition select_best_images_with_ai (num_images : Z) : M (list string) :=
  logger (LogInfo ("使用AI筛选最佳 " +:+ PyStr.of_int num_images +:+ " 张图片"));;
  self ← this;
  let image_candidates := image_candidates_of (posts self) in
  selected ←
    ((fun self =>
        let '(_, log, r) :=
          analyze_images_content world image_candidates (keyword self) num_images in
        (self, log, r)) : M (list string));
  assign (fun self => {| keyword := keyword self;
                         posts := posts self;
                         selected_images := selected;
                         generated_content := generated_content self |});;
  logger (LogInfo ("筛选完成，选出 " +:+ PyStr.of_int (Z.of_nat (length selected))
                   +:+ " 张图片"));;
  mret selected.

(** generate_dianping_content_with_ai. *)
Definition generate_dianping_content_with_ai : M string :=
  logger (LogInfo "生成大众点评风格文案");;
  self ← this;
  let reference_content := reference_content_of (posts self) in
  text ←
    ((fun self =>
        let '(log, r) :=
          generate_dianping_content world reference_content (keyword self)
            (selected_images self) in
        (self, log, r)) : M string);
  assign (fun self => {| keyword := keyword self;
                         posts := posts self;
                         selected_images := selected_images self;
                         generated_content := text |});;
  logger (LogInfo "文案生成完成");;
  mret text.

(** The exception of line 466. *)
Definition no_data : exc := Exc ValueError "未获取到任何帖子数据".

(** run. *)
Definition run : M CurationResult :=
  finally
    (log_and_reraise
       (crawl_xhs_posts 100;;
        posts ← get_top_posts_from_db 100;
        match posts with
        | [] => raise no_data
        | _ =>
            images ← select_best_images_with_ai 9;
            text ← generate_dianping_content_with_ai;
            self ← this;
            logger (LogInfo "任务完成！");;
            mret {| result_keyword := keyword self;
                   total_posts := Z.of_nat (length posts);
                   result_selected_images := images;
                   content := text;
                   top_posts :=
                     (fun post => (title post, liked_count post, note_url post))
                       <$> take 10 posts |}
        end)
       (fun e => "任务执行失败: " +:+ exc_message e))
    (lift (db_close world)).

End XhsToDianpingGenerator.

(** ** Variations of a world *)

(** The world with another local backend, and with another cloud
    backend. *)
Definition with_requests_post (world : World)
    (f : string -> outcome reply) : World :=
  {| HAS_OPENAI := HAS_OPENAI world;
     HAS_REQUESTS := HAS_REQUESTS world;
     openai_api_key := openai_api_key world;
     openai_chat := openai_chat world;
     requests_post := f;
     crawler_start := crawler_start world;
     xhs_note := xhs_note world;
     cast_unsigned := cast_unsigned world;
     spliced_condition := spliced_condition world;
     int_of_str := int_of_str world;
     int_error := int_error world;
     db_close := db_close world |}.

Definition with_openai_chat (world : World)
    (f : string -> outcome reply) : World :=
  {| HAS_OPENAI := HAS_OPENAI world;
     HAS_REQUESTS := HAS_REQUESTS world;
     openai_api_key := openai_api_key world;
     openai_chat := f;
     requests_post := requests_post world;
     crawler_start := crawler_start world;
     xhs_note := xhs_note world;
     cast_unsigned := cast_unsigned world;
     spliced_condition := spliced_condition world;
     int_of_str := int_of_str world;
     int_error := int_error world;
     db_close := db_close world |}.

(** A world in which no backend call gives a text: every call raises an
    instance of Exception or yields a value that is no str. *)
Definition backends_fail (world : World) : Prop :=
  forall prompt,
    match backend_response world prompt with
    | Returns (Text _) => False
    | Returns (NotText _) => True
    | Raises e => caught e = true
    end.

(** [w] stands somewhere in [s]. *)
Definition occurs_in (w s : string) : Prop :=
  exists before after, s = before +:+ w +:+ after.

(** ** Reference definitions for the statements below *)

(** A URL that the selection loop accepts: url.strip() is not empty. *)
Definition nonblank (u : string) : bool := PyStr.truthy (PyStr.strip u).

(** The elements of a list in the order of their first occurrence, every
    later repetition dropped. *)
Fixpoint first_occurrences (l : list string) : list string :=
  match l with
  | [] => []
  | x :: l' => x :: filter (fun y => y <> x) (first_occurrences l')
  end.

(** The number of distinct non-blank URLs among the candidates. *)
Definition distinct_nonblank (candidates : list Candidate) : nat :=
  size (list_to_set (filter nonblank (url <$> candidates)) : gset string).


(** The integer that int reads in a text, 0 when it raises (the result
    of lines 362-366 for a str that is not empty). *)
Definition int_or_zero (world : World) (s : string) : Z :=
  default 0 (int_of_str world s).

(** ** Worlds for the examples *)

(** The value of an ASCII decimal digit. *)
Definition digit (a : ascii) : option Z :=
  let n := PyStr.code a in
  if ((48 <=? n) && (n <=? 57))%N then Some (Z.of_N n - 48) else None.

(** A reading of the store's conversion: the value of the leading
    decimal digits. *)
Fixpoint leading_digits (acc : N) (s : string) : N :=
  match s with
  | EmptyString => acc
  | String a s' =>
      match digit a with
      | Some d => leading_digits (10 * acc + Z.to_N d) s'
      | None => acc
      end
  end.

(** The int of the example worlds. It reads what the interpreter reads
    in a text of ASCII characters: blanks (9..13 and 32) around the
    number, one sign, decimal digits with single underscores between
    them; every other text raises. The interpreter also reads the
    decimal digits of other scripts and refuses numbers of more than
    4300 digits; the examples hold no such text. *)
Definition is_blank (a : ascii) : bool :=
  let n := PyStr.code a in ((9 <=? n) && (n <=? 13) || (n =? 32))%N.

Fixpoint drop_blanks (s : string) : string :=
  match s with
  | String a s' => if is_blank a then drop_blanks s' else s
  | EmptyString => s
  end.

Fixpoint digits (acc : Z) (after_digit : bool) (s : string) : option Z :=
  match s with
  | EmptyString => if after_digit then Some acc else None
  | String a s' =>
      match digit a with
      | Some d => digits (10 * acc + d) true s'
      | None =>
          if Ascii.eqb a "_"%char && after_digit then digits acc false s'
          else None
      end
  end.

Definition ascii_int (s : string) : option Z :=
  match String.rev (drop_blanks (String.rev (drop_blanks s))) with
  | String a s' =>
      if Ascii.eqb a "-"%char then option_map Z.opp (digits 0 false s')
      else if Ascii.eqb a "+"%char then digits 0 false s'
      else digits 0 false (String a s')
  | EmptyString => None
  end.

(** The interpreter's message for a text that int does not read, for a
    text that repr puts between two quotes as it is. *)
Definition invalid_literal (s : string) : string :=
  "invalid literal for int() with base 10: '" +:+ s +:+ "'".

(** No cloud credential, the requests package installed, a local backend
    that answers every prompt with [answer], a crawl and a close that
    succeed, and the table [table]. *)
Definition local_world (answer : outcome reply) (table : list Row) : World :=
  {| HAS_OPENAI := false;
     HAS_REQUESTS := true;
     openai_api_key := None;
     openai_chat := fun _ => Raises (Exc ExceptionClass "no credential");
     requests_post := fun _ => answer;
     crawler_start := Returns tt;
     xhs_note := Returns table;
     cast_unsigned := leading_digits 0;
     spliced_condition :=
       fun _ => Raises (Exc (OtherException "ProgrammingError") "SQL syntax error");
     int_of_str := ascii_int;
     int_error := invalid_literal;
     db_close := Returns tt |}.

(** A candidate and a table record with the given essentials. *)
Definition candidate (u : string) (n : Z) : Candidate :=
  {| url := u; post_title := Some "title"; post_desc := Some "desc";
     cand_liked_count := n; post_url := Some "post" |}.

Definition record (kw id : string) (liked images : option string) : Row :=
  {| row_source_keyword := Some kw; row_note_id := Some id;
     row_title := Some "title";
     row_desc := Some "desc"; row_liked_count := liked;
     row_comment_count := Some "3"; row_collected_count := None;
     row_image_list := images; row_note_url := Some "post";
     row_nickname := Some "nick" |}.

(** The same record with a description that is NULL. *)
Definition record_without_desc (kw id : string) (liked images : option string) : Row :=
  {| row_source_keyword := Some kw; row_note_id := Some id;
     row_title := Some "title";
     row_desc := None; row_liked_count := liked;
     row_comment_count := Some "3"; row_collected_count := None;
     row_image_list := images; row_note_url := Some "post";
     row_nickname := Some "nick" |}.

(** A world without cloud credential whose local backend answers every
    prompt with one URL, with the given outcomes of the crawl, of the
    reading of the table and of the close. *)
Definition store_world (crawl : outcome unit) (table : outcome (list Row))
    (close : outcome unit) : World :=
  {| HAS_OPENAI := false;
     HAS_REQUESTS := true;
     openai_api_key := None;
     openai_chat := fun _ => Raises (Exc ExceptionClass "no credential");
     requests_post := fun _ => Returns (Text "https://cdn/x.jpg");
     crawler_start := crawl;
     xhs_note := table;
     cast_unsigned := leading_digits 0;
     spliced_condition :=
       fun _ => Raises (Exc (OtherException "ProgrammingError") "SQL syntax error");
     int_of_str := ascii_int;
     int_error := invalid_literal;
     db_close := close |}.

(** A fresh generator for a keyword (lines 266-270). *)
Definition new_generator (kw : string) : Generator :=
  {| keyword := kw; posts := []; selected_images := []; generated_content := EmptyString |}.

(** * Properties *)

(** ** The stable sort *)

Section StableSortFacts.
Context {A : Type} (key : A -> Z).

Lemma insert_desc_perm (x : A) (l : list A) : insert_desc key x l ≡ₚ x :: l.
Proof.
  induction l as [|y l IH]; simpl; [done|].
  destruct (key y <=? key x); [done|].
  rewrite IH. apply Permutation_swap.
Qed.

Lemma sort_desc_perm (l : list A) : sort_desc key l ≡ₚ l.
Proof.
  induction l as [|x l IH]; simpl; [done|].
  rewrite insert_desc_perm. by f_equiv.
Qed.

Lemma insert_desc_sorted (x : A) (l : list A) :
  StronglySorted (descending key) l -> StronglySorted (descending key) (insert_desc key x l).
Proof.
  induction l as [|y l IH]; intros Hl; simpl.
  - repeat constructor.
  - apply StronglySorted_inv in Hl as [Hl Hy].
    destruct (Z.leb_spec (key y) (key x)) as [Hle|Hlt].
    + constructor; [by constructor|].
      constructor; [done|].
      eapply Forall_impl; [exact Hy|]. unfold descending. simpl. lia.
    + constructor; [by apply IH|].
      rewrite insert_desc_perm. constructor; [unfold descending; lia | done].
Qed.

Lemma sort_desc_sorted (l : list A) : StronglySorted (descending key) (sort_desc key l).
Proof.
  induction l as [|x l IH]; simpl; [constructor | by apply insert_desc_sorted].
Qed.

(** Insertion passes only elements with a larger key, so among the
    elements of one key the new one comes first. *)
Lemma insert_desc_filter (k : Z) (x : A) (l : list A) :
  filter (fun y => key y = k) (insert_desc key x l)
  = filter (fun y => key y = k) (x :: l).
Proof.
  induction l as [|y l IH]; simpl; [done|].
  destruct (Z.leb_spec (key y) (key x)) as [Hle|Hlt]; [done|].
  rewrite filter_cons, IH, !filter_cons.
  repeat case_decide; try done; lia.
Qed.

Lemma sort_desc_stable (k : Z) (l : list A) :
  filter (fun y => key y = k) (sort_desc key l) = filter (fun y => key y = k) l.
Proof.
  induction l as [|x l IH]; simpl; [done|].
  rewrite insert_desc_filter, !filter_cons, IH. done.
Qed.

End StableSortFacts.

(** ** First occurrences *)

Lemma elem_of_first_occurrences (x : string) (l : list string) :
  x ∈ first_occurrences l <-> x ∈ l.
Proof.
  induction l as [|y l IH]; simpl; [done|].
  rewrite !elem_of_cons, list_elem_of_filter, IH.
  destruct (decide (x = y)); tauto.
Qed.

Lemma NoDup_first_occurrences (l : list string) : NoDup (first_occurrences l).
Proof.
  induction l as [|y l IH]; simpl; constructor.
  - rewrite list_elem_of_filter. by intros [? _].
  - by apply NoDup_filter.
Qed.

Lemma length_first_occurrences (l : list string) :
  length (first_occurrences l) = size (list_to_set l : gset string).
Proof.
  rewrite <- (size_list_to_set (C := gset string) (first_occurrences l))
    by apply NoDup_first_occurrences.
  f_equal. apply set_eq. intros x.
  by rewrite !elem_of_list_to_set, elem_of_first_occurrences.
Qed.

(** ** The fallback selection *)

Lemma filter_all {A : Type} (P : A -> Prop) `{!forall x, Decision (P x)} (l : list A) :
  (forall x, P x) -> filter P l = l.
Proof.
  intros HP. induction l as [|x l IH]; [done|].
  by rewrite filter_cons_True, IH.
Qed.

(** The loop, started with [selected] and the set of its elements, adds
    the first occurrences of the non-blank URLs that are not selected
    yet, up to [n] URLs in all. *)
Lemma selection_loop_spec (n : nat) (candidates : list Candidate)
    (selected : list string) (seen_urls : gset string) :
  (forall u, u ∈ seen_urls <-> u ∈ selected) ->
  (length selected <= n)%nat ->
  selection_loop (Z.of_nat n) candidates selected seen_urls
  = take n (selected
            ++ filter (fun u => u ∉ selected)
                 (first_occurrences (filter nonblank (url <$> candidates)))).
Proof.
  revert selected seen_urls.
  induction candidates as [|c rest IH]; intros selected seen Hseen Hlen; simpl.
  - rewrite app_nil_r, take_ge; [done | lia].
  - destruct (Z.geb_spec (Z.of_nat (length selected)) (Z.of_nat n)) as [Hfull|Hroom].
    + rewrite take_app_le, take_ge; [done | lia | lia].
    + rewrite filter_cons. fold (nonblank (url c)).
      destruct (nonblank (url c)) eqn:Hnb; simpl;
        [|rewrite andb_false_r; by apply IH].
      rewrite andb_true_r.
      case_bool_decide as Hnew.
      * rewrite IH; cycle 1.
        { intros u. rewrite elem_of_union, elem_of_singleton, elem_of_app,
            list_elem_of_singleton, Hseen. done. }
        { rewrite length_app. simpl. lia. }
        simpl. rewrite filter_cons, decide_True by (by rewrite <- Hseen).
        rewrite <- app_assoc. simpl. do 3 f_equal.
        rewrite list_filter_filter. apply list_filter_iff. intros u.
        rewrite elem_of_app, list_elem_of_singleton.
        split; [intros H; split; intros ?; apply H; eauto | intros [H1 H2] [?|?]; done].
      * rewrite IH by done. simpl.
        assert (url c ∈ selected) as Hin by (by apply Hseen).
        rewrite filter_cons, decide_False by (intros H; by apply H).
        rewrite list_filter_filter. do 2 f_equal. apply list_filter_iff.
        intros u. split; [|by intros [? _]]. intros Hu. split; [done|].
        by intros ->.
Qed.

(** A target count that is not positive selects nothing. *)
Lemma selection_loop_none (num_images : Z) (candidates : list Candidate) :
  num_images <= 0 -> selection_loop num_images candidates [] ∅ = [].
Proof.
  intros Hn. destruct candidates as [|c rest]; simpl; [done|].
  change (Z.of_nat 0) with 0.
  destruct (Z.geb_spec 0 num_images); [done | lia].
Qed.

(** The returned list in closed form, for every int [num_images]. *)
Lemma heuristic_selection_closed_form (candidates : list Candidate) (num_images : Z) :
  (_heuristic_image_selection candidates num_images).2
  = take (Z.to_nat num_images)
      (first_occurrences
         (filter nonblank (url <$> sort_desc cand_liked_count candidates))).
Proof.
  unfold _heuristic_image_selection, slice_to. simpl.
  destruct (Z.ltb_spec num_images 0) as [Hneg|Hpos].
  - rewrite selection_loop_none by lia.
    replace (Z.to_nat num_images) with 0%nat by lia. by rewrite take_0, take_nil.
  - pose proof (selection_loop_spec (Z.to_nat num_images)
                  (sort_desc cand_liked_count candidates) [] ∅) as Hloop.
    rewrite Z2Nat.id in Hloop by done.
    rewrite Hloop; [|set_solver|simpl; lia].
    simpl. rewrite take_take, Nat.min_id. f_equal.
    apply filter_all. intros u. apply not_elem_of_nil.
Qed.

(** C3. For every candidate list and target count, the fallback
    selection returns a list without repeated URLs and of at most
    targetCount URLs; its length is targetCount when the candidates hold
    at least that many distinct non-blank URLs and the number of distinct
    non-blank URLs otherwise, which is the minimum of the two; and it
    lists the URLs in the order of the candidates sorted by descending
    liked count, equal counts in their original order, blank URLs and
    repetitions skipped. The target count is [Z.to_nat num_images], the
    int itself unless it is negative. *)
Theorem heuristic_image_selection_spec (candidates : list Candidate) (num_images : Z) :
  let result := (_heuristic_image_selection candidates num_images).2 in
  let sorted := sort_desc cand_liked_count candidates in
  let target := Z.to_nat num_images in
  NoDup result
  /\ (length result <= target)%nat
  /\ length result = Nat.min target (distinct_nonblank candidates)
  /\ sorted ≡ₚ candidates
  /\ StronglySorted (descending cand_liked_count) sorted
  /\ (forall k, filter (fun c => cand_liked_count c = k) sorted
                = filter (fun c => cand_liked_count c = k) candidates)
  /\ result = take target (first_occurrences (filter nonblank (url <$> sorted))).
Proof.
  intros result sorted target.
  assert (result = take target (first_occurrences (filter nonblank (url <$> sorted))))
    as Hresult by apply heuristic_selection_closed_form.
  assert (length (first_occurrences (filter nonblank (url <$> sorted)))
          = distinct_nonblank candidates) as Hdistinct.
  { rewrite length_first_occurrences. unfold distinct_nonblank. f_equal.
    apply set_eq. intros u. rewrite !elem_of_list_to_set.
    unfold sorted. by rewrite sort_desc_perm. }
  repeat split.
  - rewrite Hresult.
    eauto using sublist_NoDup, sublist_take, NoDup_first_occurrences.
  - rewrite Hresult, length_take. lia.
  - by rewrite Hresult, length_take, Hdistinct.
  - apply sort_desc_perm.
  - apply sort_desc_sorted.
  - intros k. apply sort_desc_stable.
  - done.
Qed.

(** A concrete run of the fallback selection: counts 50, 200, 10 and 200
    with a blank URL and a repeated one. *)
Example heuristic_selection_example :
  (_heuristic_image_selection
     [candidate "a" 50; candidate "b" 200; candidate "  " 300;
      candidate "a" 10; candidate "c" 200; candidate "d" 7] 3).2
  = ["b"; "c"; "a"].
Proof. reflexivity. Qed.

(** ** The candidate aggregation *)

Lemma image_loop_spec (post : RestaurantPost) (urls : list string)
    (image_candidates : list Candidate) :
  fold_left (fun image_candidates img_url =>
               image_candidates ++ [candidate_of post img_url])
    urls image_candidates
  = image_candidates ++ (candidate_of post <$> urls).
Proof.
  revert image_candidates.
  induction urls as [|u urls IH]; intros acc; simpl.
  - by rewrite app_nil_r.
  - by rewrite IH, <- app_assoc.
Qed.

Lemma post_loop_spec (posts : list RestaurantPost) (image_candidates : list Candidate) :
  fold_left
    (fun image_candidates post =>
       fold_left (fun image_candidates img_url =>
                    image_candidates ++ [candidate_of post img_url])
         (image_list post) image_candidates)
    posts image_candidates
  = image_candidates
    ++ (posts ≫= fun post => candidate_of post <$> image_list post).
Proof.
  revert image_candidates.
  induction posts as [|p posts IH]; intros acc; simpl.
  - by rewrite app_nil_r.
  - by rewrite IH, image_loop_spec, <- app_assoc.
Qed.

(** The index of the first candidate of the post of rank [i]. *)
Lemma lookup_bind_offset {A B : Type} (f : A -> list B) (l : list A)
    (i j : nat) (x : A) (y : B) :
  l !! i = Some x -> f x !! j = Some y ->
  (l ≫= f) !! (sum_list (length ∘ f <$> take i l) + j)%nat = Some y.
Proof.
  revert i. induction l as [|a l IH]; intros [|i] Hi Hj; simplify_eq/=.
  - by apply lookup_app_l_Some.
  - rewrite <- Nat.add_assoc, lookup_app_r by lia.
    replace (length (f a) + _ - length (f a))%nat
      with (sum_list (length ∘ f <$> take i l) + j)%nat by lia.
    by apply IH.
Qed.

(** C7. The aggregation makes one candidate for every image URL of each
    of the first fifty posts and nothing else: the candidates are those
    of the first post in the order of its images, then those of the
    second, and so on, so that their number is the sum of the lengths of
    the image lists, a URL listed by two posts gives two candidates, and
    the image of index [j] of the post of rank [i] stands behind all
    images of the posts of smaller rank and the [j] images before it. *)
Theorem image_candidates_spec (posts : list RestaurantPost) :
  let window := take 50 posts in
  let candidates := image_candidates_of posts in
  candidates = (window ≫= fun post => candidate_of post <$> image_list post)
  /\ url <$> candidates = window ≫= image_list
  /\ length candidates = sum_list (length ∘ image_list <$> window)
  /\ (forall i j post img_url,
        window !! i = Some post -> image_list post !! j = Some img_url ->
        candidates !! (sum_list (length ∘ image_list <$> take i window) + j)%nat
        = Some (candidate_of post img_url)).
Proof.
  intros window candidates.
  assert (candidates = (window ≫= fun post => candidate_of post <$> image_list post))
    as Hc by apply post_loop_spec.
  split; [done|]. rewrite Hc. clear Hc candidates. repeat split.
  - induction window as [|p w IH]; [done|].
    rewrite !bind_cons, fmap_app, IH, <- list_fmap_compose.
    f_equal. by rewrite <- (list_fmap_id (image_list p)) at 2.
  - induction window as [|p w IH]; [done|].
    rewrite bind_cons, fmap_cons, length_app, length_fmap, IH. done.
  - intros i j post img_url Hi Hj.
    pose proof (lookup_bind_offset
                  (fun post => candidate_of post <$> image_list post)
                  window i j post (candidate_of post img_url) Hi) as H.
    simpl in H. rewrite list_lookup_fmap, Hj in H. specialize (H eq_refl).
    rewrite <- H. do 3 f_equal. apply list_fmap_ext.
    intros _ p _. simpl. by rewrite length_fmap.
Qed.

(** Two posts that list the same URL give two candidates, in the order
    of the posts. *)
Example image_candidates_example :
  let post n l imgs := {| note_id := Some n; title := Some n; desc := Some "d";
                          liked_count := l; comment_count := 0; collected_count := 0;
                          image_list := imgs; note_url := Some n;
                          nickname := Some "nick" |} in
  url <$> image_candidates_of
            [post "p1" 200 ["x"; "y"]; post "p2" 50 []; post "p3" 10 ["x"]]
  = ["x"; "y"; "x"].
Proof. reflexivity. Qed.

(** ** The template synthesis *)

Lemma string_app_assoc (s1 s2 s3 : string) :
  (s1 +:+ s2) +:+ s3 = s1 +:+ (s2 +:+ s3).
Proof.
  induction s1 as [|a s1 IH]; [done|].
  change (String a ((s1 +:+ s2) +:+ s3) = String a (s1 +:+ (s2 +:+ s3))).
  by rewrite IH.
Qed.

(** C4. For every list of reference posts, the empty one included, and
    every keyword, the template synthesis returns a text that is not
    empty and holds the keyword; being a total function of its two
    arguments, it returns for every input. *)
Theorem template_content_holds_keyword (reference_posts : list Reference)
    (keyword : string) :
  let text := _generate_template_content reference_posts keyword in
  (0 < String.length text)%nat
  /\ exists before after, text = before +:+ keyword +:+ after.
Proof.
  split.
  - unfold _generate_template_content. cbv. apply Nat.lt_0_succ.
  - unfold _generate_template_content. eexists "探店", _.
    rewrite !string_app_assoc. reflexivity.
Qed.

(** C9. The text of the template synthesis depends on the keyword only:
    any two lists of reference posts give the same text, the categories
    matched in the posts being collected and never read. *)
Theorem template_content_ignores_posts (keyword : string)
    (reference_posts1 reference_posts2 : list Reference) :
  _generate_template_content reference_posts1 keyword
  = _generate_template_content reference_posts2 keyword.
Proof.
  (* keywords_found is bound in both texts and read in neither *)
  unfold _generate_template_content. cbv zeta. reflexivity.
Qed.

(** The categories matched differ between two posts, the text does not. *)
Example template_content_example :
  let tasty :=
    {| ref_title := Some "好吃"; ref_desc := Some "环境不错"; ref_liked_count := 7 |} in
  let plain :=
    {| ref_title := Some "title"; ref_desc := None; ref_liked_count := 7 |} in
  post_keywords tasty = ["口味佳"; "环境好"]
  /\ post_keywords plain = []
  /\ _generate_template_content [tasty] "烤肉" = _generate_template_content [plain] "烤肉".
Proof. repeat split. Qed.

(** ** Selection and synthesis with their fallbacks *)

(** The listing of the candidates is built exactly when each of them has
    a description; otherwise its construction raises the TypeError of
    the slice. *)
Lemma formatted_candidates_cases (i : Z) (candidates : list Candidate) :
  match formatted_candidates i candidates with
  | Returns _ => Forall (fun c => post_desc c <> None) candidates
  | Raises e =>
      e = not_subscriptable /\ exists c, c ∈ candidates /\ post_desc c = None
  end.
Proof.
  revert i. induction candidates as [|c rest IH]; intros i; simpl; [done|].
  unfold candidate_lines.
  destruct (post_desc c) as [d|] eqn:Hd; simpl.
  - specialize (IH (i + 1)).
    destruct (formatted_candidates (i + 1) rest) as [more|e]; simpl.
    + constructor; [by rewrite Hd | done].
    + destruct IH as [-> (c' & Hc' & Hnone)]. split; [done|].
      exists c'. split; [by right | done].
  - split; [done|]. exists c. split; [by left | done].
Qed.

Lemma formatted_posts_cases (i : Z) (posts : list Reference) :
  match formatted_posts i posts with
  | Returns _ => Forall (fun r => ref_desc r <> None) posts
  | Raises e =>
      e = not_subscriptable /\ exists r, r ∈ posts /\ ref_desc r = None
  end.
Proof.
  revert i. induction posts as [|r rest IH]; intros i; simpl; [done|].
  unfold post_lines.
  destruct (ref_desc r) as [d|] eqn:Hd; simpl.
  - specialize (IH (i + 1)).
    destruct (formatted_posts (i + 1) rest) as [more|e]; simpl.
    + constructor; [by rewrite Hd | done].
    + destruct IH as [-> (r' & Hr' & Hnone)]. split; [done|].
      exists r'. split; [by right | done].
  - split; [done|]. exists r. split; [by left | done].
Qed.

(** The request of the selection is built exactly when each of the first
    thirty candidates has a description. *)
Lemma selection_prompt_cases (image_candidates : list Candidate)
    (keyword : string) (num_images : Z) :
  match selection_prompt image_candidates keyword num_images with
  | Returns _ => Forall (fun c => post_desc c <> None) (take 30 image_candidates)
  | Raises e =>
      e = not_subscriptable
      /\ exists c, c ∈ take 30 image_candidates /\ post_desc c = None
  end.
Proof.
  unfold selection_prompt, _format_image_candidates_for_ai.
  pose proof (formatted_candidates_cases 1 (take 30 image_candidates)) as H.
  by destruct (formatted_candidates 1 (take 30 image_candidates)).
Qed.

(** The request of the synthesis is built exactly when each of the first
    ten reference posts has a description. *)
Lemma synthesis_prompt_cases (reference_posts : list Reference)
    (keyword : string) (selected_images : list string) :
  match synthesis_prompt reference_posts keyword selected_images with
  | Returns _ => Forall (fun r => ref_desc r <> None) (take 10 reference_posts)
  | Raises e =>
      e = not_subscriptable
      /\ exists r, r ∈ take 10 reference_posts /\ ref_desc r = None
  end.
Proof.
  unfold synthesis_prompt, _format_posts_for_ai.
  pose proof (formatted_posts_cases 1 (take 10 reference_posts)) as H.
  by destruct (formatted_posts 1 (take 10 reference_posts)).
Qed.

(** An element without description is no element of a list whose
    elements all have one. *)
Lemma Forall_not_None {A : Type} (f : A -> option string) (l : list A) (x : A) :
  Forall (fun y => f y <> None) l -> x ∈ l -> f x = None -> False.
Proof. intros Hl Hx Hnone. by apply (proj1 (Forall_forall _ _) Hl x Hx). Qed.

Lemma selection_prompt_returns (image_candidates : list Candidate)
    (keyword : string) (num_images : Z) :
  Forall (fun c => post_desc c <> None) (take 30 image_candidates) ->
  exists request, selection_prompt image_candidates keyword num_images = Returns request.
Proof.
  intros Hdesc. pose proof (selection_prompt_cases image_candidates keyword num_images) as H.
  destruct (selection_prompt _ _ _) as [request|e]; [by eexists|].
  destruct H as [_ (c & Hc & Hnone)]. by destruct (Forall_not_None _ _ _ Hdesc Hc Hnone).
Qed.

Lemma synthesis_prompt_returns (reference_posts : list Reference)
    (keyword : string) (selected_images : list string) :
  Forall (fun r => ref_desc r <> None) (take 10 reference_posts) ->
  exists request,
    synthesis_prompt reference_posts keyword selected_images = Returns request.
Proof.
  intros Hdesc.
  pose proof (synthesis_prompt_cases reference_posts keyword selected_images) as H.
  destruct (synthesis_prompt _ _ _) as [request|e]; [by eexists|].
  destruct H as [_ (r & Hr & Hnone)]. by destruct (Forall_not_None _ _ _ Hdesc Hr Hnone).
Qed.

Lemma selection_prompt_raises (image_candidates : list Candidate)
    (keyword : string) (num_images : Z) (c : Candidate) :
  c ∈ take 30 image_candidates -> post_desc c = None ->
  selection_prompt image_candidates keyword num_images = Raises not_subscriptable.
Proof.
  intros Hc Hnone.
  pose proof (selection_prompt_cases image_candidates keyword num_images) as H.
  destruct (selection_prompt _ _ _) as [request|e]; [|by destruct H as [-> _]].
  by destruct (Forall_not_None _ _ _ H Hc Hnone).
Qed.


Section ManagerFacts.
Variable world : World.




(** The four ways out of analyze_images_content. *)
Lemma analyze_images_content_cases (image_candidates : list Candidate)
    (keyword : string) (num_images : Z) :
  let result := analyze_images_content world image_candidates keyword num_images in
  let fallback := _heuristic_image_selection image_candidates num_images in
  match selection_prompt image_candidates keyword num_images with
  | Raises e => result = (image_candidates, [], Raises e)
  | Returns request =>
      match selection_attempt world request num_images with
      | Returns urls => result = (image_candidates, [], Returns urls)
      | Raises e =>
          if caught e
          then result = (fallback.1,
                         [LogWarning ("AI图片筛选失败，使用启发式方法: " +:+ exc_message e)],
                         Returns fallback.2)
          else result = (image_candidates, [], Raises e)
      end
  end.
Proof.
  unfold analyze_images_content.
  destruct (selection_prompt _ _ _) as [request|e]; [|done].
  destruct (selection_attempt _ _ _) as [urls|e]; [done|].
  destruct (caught e); [|done].
  by destruct (_heuristic_image_selection _ _).
Qed.




(** A candidate without description among the first thirty: the
    selection raises before its try block. *)
Lemma analyze_images_content_not_built (image_candidates : list Candidate)
    (keyword : string) (num_images : Z) (c : Candidate) :
  c ∈ take 30 image_candidates -> post_desc c = None ->
  analyze_images_content world image_candidates keyword num_images
  = (image_candidates, [], Raises not_subscriptable).
Proof.
  intros Hc Hnone. unfold analyze_images_content.
  by rewrite (selection_prompt_raises _ keyword num_images c Hc Hnone).
Qed.



End ManagerFacts.


(** An exception that derives from BaseException only passes the
    handlers: a KeyboardInterrupt raised by the local backend leaves
    both operations. *)
Example interrupt_is_not_absorbed :
  let world := local_world (Raises (Exc KeyboardInterrupt EmptyString)) [] in
  (analyze_images_content world [candidate "http://a" 1] "烤肉" 9).2
  = Raises (Exc KeyboardInterrupt EmptyString)
  /\ (generate_dianping_content world [] "烤肉" []).2
     = Raises (Exc KeyboardInterrupt EmptyString).
Proof. split; reflexivity. Qed.



(** C5, amended. For a target count that is not negative, a selection
    that returns gives at most targetCount URLs. When the try block
    raised, they are URLs of the candidates. When it returned, they are
    the first lines of the response that start with http once stripped,
    and nothing compares them with the candidates. *)
Theorem selection_result_shape (world : World) (image_candidates : list Candidate)
    (keyword : string) (num_images : Z) (urls : list string) :
  0 <= num_images ->
  (analyze_images_content world image_candidates keyword num_images).2 = Returns urls ->
  exists request,
    selection_prompt image_candidates keyword num_images = Returns request
    /\ Z.of_nat (length urls) <= num_images
    /\ match backend_response world request with
       | Returns (Text response) =>
           urls = take (Z.to_nat num_images) (response_urls response)
           /\ forall u, u ∈ urls ->
                PyStr.startswith "http" u = true
                /\ exists line, line ∈ PyStr.split (ascii_of_nat 10) response
                                /\ u = PyStr.strip line
       | _ => forall u, u ∈ urls -> u ∈ url <$> image_candidates
       end.
Proof.
  intros Hn Hurls.
  pose proof (analyze_images_content_cases world image_candidates keyword num_images)
    as Hcases. simpl in Hcases.
  destruct (selection_prompt image_candidates keyword num_images) as [request|e0];
    [|by rewrite Hcases in Hurls].
  exists request. split; [done|].
  assert (forall u, u ∈ (_heuristic_image_selection image_candidates num_images).2 ->
                    u ∈ url <$> image_candidates) as Hfallback.
  { intros u. rewrite heuristic_selection_closed_form. intros Hu.
    apply (subseteq_take _ _ _) in Hu.
    apply elem_of_first_occurrences, list_elem_of_filter in Hu as [_ Hu].
    by rewrite sort_desc_perm in Hu. }
  assert (Z.of_nat (length (_heuristic_image_selection image_candidates num_images).2)
          <= num_images) as Hfallback_length.
  { rewrite heuristic_selection_closed_form, length_take. lia. }
  unfold selection_attempt in Hcases.
  destruct (backend_response world request) as [[response|type_name]|e] eqn:Hb.
  - rewrite Hcases in Hurls. injection Hurls as <-.
    unfold slice_to. destruct (Z.ltb_spec num_images 0); [lia|].
    split; [rewrite length_take; lia|]. split; [done|].
    intros u Hu. apply (subseteq_take _ _ _) in Hu.
    unfold response_urls in Hu.
    apply list_elem_of_fmap in Hu as (line & -> & Hline).
    apply list_elem_of_filter in Hline as [Hhttp Hline].
    apply andb_prop_elim in Hhttp as [_ Hhttp].
    split; [by apply Is_true_true | by exists line].
  - simpl in Hcases. rewrite Hcases in Hurls. by injection Hurls as <-.
  - destruct (caught e); rewrite Hcases in Hurls; [|done].
    by injection Hurls as <-.
Qed.

(** C5, the claim as stated fails: the URL that the backend answers is
    returned although no candidate carries it. *)
Example foreign_url_is_returned :
  let world := local_world (Returns (Text "http://elsewhere/x.jpg")) [] in
  (analyze_images_content world [candidate "http://a" 1] "烤肉" 9).2
  = Returns ["http://elsewhere/x.jpg"]
  /\ "http://elsewhere/x.jpg" ∉ url <$> [candidate "http://a" 1].
Proof. split; [reflexivity | by intros [=]%list_elem_of_singleton]. Qed.

(** C5, amended, at a response of three lines of which two qualify. *)
Lemma selection_result_shape_witness :
  let world :=
    local_world (Returns (Text ("  http://a " +:+ PyStr.NL +:+ "no url"
                                +:+ PyStr.NL +:+ "https://b"))) [] in
  exists request,
    selection_prompt [candidate "http://a" 1] "烤肉" 9 = Returns request
    /\ Z.of_nat (length ["http://a"; "https://b"]) <= 9
    /\ match backend_response world request with
       | Returns (Text response) =>
           ["http://a"; "https://b"] = take (Z.to_nat 9) (response_urls response)
           /\ forall u, u ∈ ["http://a"; "https://b"] ->
                PyStr.startswith "http" u = true
                /\ exists line, line ∈ PyStr.split (ascii_of_nat 10) response
                                /\ u = PyStr.strip line
       | _ => forall u, u ∈ ["http://a"; "https://b"] ->
                        u ∈ url <$> [candidate "http://a" 1]
       end.
Proof.
  intros world.
  apply (selection_result_shape world [candidate "http://a" 1] "烤肉" 9
           ["http://a"; "https://b"]); [lia | reflexivity].
Defined.

(** Sorting a list that is in descending order changes nothing. *)
Lemma sort_desc_sorted_id {A : Type} (key : A -> Z) (l : list A) :
  StronglySorted (descending key) l -> sort_desc key l = l.
Proof.
  induction 1 as [|x l Hl IH Hx]; simpl; [done|].
  rewrite IH. destruct Hx as [|y l' Hy _]; simpl; [done|].
  unfold descending in Hy. by destruct (Z.leb_spec (key y) (key x)); [|lia].
Qed.

(** The selection stage assigns selected_images and nothing else. *)
Lemma select_best_images_posts (world : World) (num_images : Z) (self : Generator) :
  posts (select_best_images_with_ai world num_images self).1.1 = posts self.
Proof.
  unfold select_best_images_with_ai. unfold_M.
  by destruct (analyze_images_content _ _ _ _) as [[c log] [urls|e]].
Qed.

(** C10, amended. After the selection the caller's list holds the same
    candidates. When the request cannot be built, or the try block
    returns, or raises what is not caught, the list is as it was. When
    the fallback runs, the list is the stable sort of its former content
    by descending liked count, which differs from it unless it was in
    that order. The list belongs to select_best_images_with_ai alone:
    the posts of the generator are the same before and after that
    stage. *)
Theorem selection_effect_on_candidates (world : World)
    (image_candidates : list Candidate) (keyword : string) (num_images : Z) :
  let after :=
    (analyze_images_content world image_candidates keyword num_images).1.1 in
  after ≡ₚ image_candidates
  /\ match selection_prompt image_candidates keyword num_images with
     | Raises _ => after = image_candidates
     | Returns request =>
         match selection_attempt world request num_images with
         | Returns _ => after = image_candidates
         | Raises e =>
             after = if caught e then sort_desc cand_liked_count image_candidates
                     else image_candidates
         end
     end
  /\ (StronglySorted (descending cand_liked_count) image_candidates ->
      after = image_candidates)
  /\ forall self,
       posts (select_best_images_with_ai world num_images self).1.1 = posts self.
Proof.
  intros after.
  pose proof (analyze_images_content_cases world image_candidates keyword num_images)
    as Hcases. simpl in Hcases.
  assert (match selection_prompt image_candidates keyword num_images with
          | Raises _ => after = image_candidates
          | Returns request =>
              match selection_attempt world request num_images with
              | Returns _ => after = image_candidates
              | Raises e =>
                  after = if caught e then sort_desc cand_liked_count image_candidates
                          else image_candidates
              end
          end) as Hafter.
  { unfold after.
    destruct (selection_prompt _ _ _) as [request|e0]; [|by rewrite Hcases].
    destruct (selection_attempt _ _ _) as [urls|e]; [by rewrite Hcases|].
    destruct (caught e); by rewrite Hcases. }
  assert (after = image_candidates
          \/ after = sort_desc cand_liked_count image_candidates) as [Hsame|Hsorted].
  { destruct (selection_prompt _ _ _) as [request|e0]; [|by left].
    destruct (selection_attempt _ _ _) as [urls|e]; [by left|].
    destruct (caught e); [by right | by left]. }
  - repeat split; try done; [by rewrite Hsame|].
    intros self. apply select_best_images_posts.
  - repeat split; try done.
    + rewrite Hsorted. apply sort_desc_perm.
    + intros Hs. rewrite Hsorted. by apply sort_desc_sorted_id.
    + intros self. apply select_best_images_posts.
Qed.

(** C10, the claim as stated fails: with a refused connection the
    fallback leaves the caller's list in another order. *)
Example fallback_reorders_candidates :
  let world :=
    local_world (Raises (Exc (OtherException "ConnectionError") "refused")) [] in
  (analyze_images_content world
     [candidate "http://a" 1; candidate "http://b" 2] "烤肉" 9).1.1
  = [candidate "http://b" 2; candidate "http://a" 1].
Proof. reflexivity. Qed.

(** ** The posts read from the store *)

Section RowFacts.
Variable world : World.

(** The guarded conversion never raises: an unreadable count is 0. *)
Lemma liked_count_of_value (v : option string) :
  liked_count_of world v
  = Returns match v with
            | Some s => if PyStr.truthy s then int_or_zero world s else 0
            | None => 0
            end.
Proof.
  unfold liked_count_of, int_or_0, int_or_zero.
  destruct v as [s|]; [|done].
  destruct (PyStr.truthy s); [|done].
  by destruct (int_of_str world s).
Qed.

(** What a post takes from its row. *)
Lemma post_of_row_returns (row : Row) (post : RestaurantPost) :
  post_of_row world row = Returns post ->
  note_id post = row_note_id row
  /\ liked_count_of world (row_liked_count row) = Returns (liked_count post)
  /\ image_list post = images_of (row_image_list row)
  /\ desc post = row_desc row.
Proof.
  unfold post_of_row.
  destruct (liked_count_of _ _) as [l|]; [|done].
  destruct (int_or_0 world (row_comment_count row)); [|done].
  destruct (int_or_0 world (row_collected_count row)); [|done].
  by intros [= <-].
Qed.

(** A row whose comment and collected counts convert gives a post. *)
Lemma post_of_row_total (row : Row) :
  (exists z, int_or_0 world (row_comment_count row) = Returns z) ->
  (exists z, int_or_0 world (row_collected_count row) = Returns z) ->
  exists post, post_of_row world row = Returns post.
Proof.
  intros [z1 H1] [z2 H2]. unfold post_of_row.
  rewrite liked_count_of_value, H1, H2. by eexists.
Qed.

(** The loop appends one post for every row, in the order of the rows. *)
Lemma posts_of_rows_returns (rows : list Row) (acc posts : list RestaurantPost) :
  posts_of_rows world rows acc = Returns posts <->
  exists new, posts = acc ++ new
              /\ Forall2 (fun row post => post_of_row world row = Returns post) rows new.
Proof.
  revert acc. induction rows as [|row rows IH]; intros acc; simpl.
  - split.
    + intros [= <-]. exists []. by rewrite app_nil_r.
    + intros (new & -> & Hnew). apply Forall2_nil_inv_l in Hnew as ->.
      by rewrite app_nil_r.
  - destruct (post_of_row world row) as [post|e] eqn:Hrow.
    + rewrite IH. split.
      * intros (new & -> & Hnew). exists (post :: new).
        rewrite <- app_assoc. split; [done | by constructor].
      * intros (new & -> & Hnew).
        apply Forall2_cons_inv_l in Hnew as (post' & new' & Hpost & Hnew & ->).
        rewrite Hrow in Hpost. injection Hpost as <-.
        exists new'. by rewrite <- app_assoc.
    + split; [done|]. intros (new & _ & Hnew).
      apply Forall2_cons_inv_l in Hnew as (post' & new' & Hpost & _).
      by rewrite Hrow in Hpost.
Qed.

End RowFacts.

Section StoreFacts.
Variable world : World.

(** The outcome of get_top_posts_from_db is that of the query followed
    by the conversion of the rows. *)
Lemma get_top_posts_outcome (limit : Z) (self : Generator) :
  (get_top_posts_from_db world limit self).2
  = match query_top_notes world (keyword self) limit with
    | Returns rows => posts_of_rows world rows []
    | Raises e => Raises e
    end.
Proof.
  unfold get_top_posts_from_db. unfold_M.
  destruct (query_top_notes _ _ _) as [rows|e]; simpl;
    [|by destruct (caught e)].
  destruct (posts_of_rows world rows []) as [posts|e]; simpl; [done|].
  by destruct (caught e).
Qed.

(** When the query and the conversion succeed, the posts are stored in
    the generator and returned. *)
Lemma get_top_posts_success (limit : Z) (self : Generator)
    (rows : list Row) (posts : list RestaurantPost) :
  query_top_notes world (keyword self) limit = Returns rows ->
  posts_of_rows world rows [] = Returns posts ->
  get_top_posts_from_db world limit self
  = ({| keyword := keyword self; posts := posts;
        selected_images := selected_images self;
        generated_content := generated_content self |},
     [LogInfo "从数据库获取点赞最高的帖子";
      LogInfo ("获取到 " +:+ PyStr.of_int (Z.of_nat (length posts)) +:+ " 个帖子")],
     Returns posts).
Proof.
  intros Hq Hp.
  unfold get_top_posts_from_db. unfold_M.
  by rewrite Hq, Hp.
Qed.

(** The rows of the query in terms of the table and of the condition of
    the statement. *)
Lemma query_top_notes_returns (kw : string) (limit : Z) (rows : list Row) :
  query_top_notes world kw limit = Returns rows ->
  exists table condition,
    xhs_note world = Returns table
    /\ statement_condition world kw = Returns condition
    /\ rows
       = take (Z.to_nat limit)
           (sort_desc
              (fun r => Z.of_N (cast_unsigned world
                                  (default EmptyString (row_liked_count r))))
              (filter condition table)).
Proof.
  unfold query_top_notes.
  destruct (xhs_note world) as [table|]; [|done].
  destruct (limit <? 0); [done|].
  destruct (statement_condition world kw) as [condition|]; [|done].
  intros [= <-]. by exists table, condition.
Qed.

(** For a keyword that stands for itself, the rows of the query are
    records of the table that pass the WHERE clause. *)
Lemma query_top_notes_sound (kw : string) (limit : Z) (rows : list Row) (row : Row) :
  sql_plain kw = true ->
  query_top_notes world kw limit = Returns rows ->
  row ∈ rows ->
  where_clause kw row = true
  /\ exists table, xhs_note world = Returns table /\ row ∈ table.
Proof.
  intros Hplain (table & condition & Htable & Hcond & ->)%query_top_notes_returns Hrow.
  unfold statement_condition in Hcond. rewrite Hplain in Hcond. injection Hcond as <-.
  apply (subseteq_take _ _ _) in Hrow. rewrite sort_desc_perm in Hrow.
  apply list_elem_of_filter in Hrow as [Hw Hrow].
  split; [by apply Is_true_true | by exists table].
Qed.

(** Within the limit, every record that passes the clause is a row. *)
Lemma query_top_notes_complete (kw : string) (limit : Z) (table rows : list Row)
    (row : Row) :
  sql_plain kw = true ->
  xhs_note world = Returns table ->
  query_top_notes world kw limit = Returns rows ->
  (length (filter (where_clause kw) table) <= Z.to_nat limit)%nat ->
  row ∈ table -> where_clause kw row = true -> row ∈ rows.
Proof.
  intros Hplain Htable (table' & condition & Htable' & Hcond & ->)%query_top_notes_returns
    Hlen Hrow Hw.
  rewrite Htable in Htable'. injection Htable' as <-.
  unfold statement_condition in Hcond. rewrite Hplain in Hcond. injection Hcond as <-.
  rewrite take_ge by (by rewrite sort_desc_perm).
  rewrite sort_desc_perm. apply list_elem_of_filter.
  split; [by apply Is_true_true | done].
Qed.

(** The query returns at most [limit] rows. *)
Lemma query_top_notes_length (kw : string) (limit : Z) (rows : list Row) :
  query_top_notes world kw limit = Returns rows ->
  (length rows <= Z.to_nat limit)%nat.
Proof.
  intros (table & condition & _ & _ & ->)%query_top_notes_returns.
  rewrite length_take. lia.
Qed.

End StoreFacts.

(** A present field is a str that is not empty. *)
Lemma sql_present_Some (v : option string) :
  sql_present v = true -> exists s, v = Some s /\ PyStr.truthy s = true /\ s <> EmptyString.
Proof.
  destruct v as [[|a s]|]; simpl; try done. intros _. by eexists.
Qed.

(** C6, amended. For a keyword that holds no quote and no backslash:
    every row that the query returns becomes a post, at the position of
    the row, as long as the comment and the collected counts of the
    returned rows convert; the post of a row on whose liked count int
    raises has the liked count 0. The query returns at most [limit]
    records, each a record of the table and of the keyword, and none
    whose liked count is NULL or the empty str; within the limit it
    returns every record of the keyword with a present liked count and
    image list. *)
Theorem unreadable_liked_count_is_zero (world : World) (limit : Z)
    (self : Generator) (rows : list Row) :
  sql_plain (keyword self) = true ->
  query_top_notes world (keyword self) limit = Returns rows ->
  Forall (fun row =>
            (exists z, int_or_0 world (row_comment_count row) = Returns z)
            /\ exists z, int_or_0 world (row_collected_count row) = Returns z)
    rows ->
  (exists posts,
     (get_top_posts_from_db world limit self).2 = Returns posts
     /\ Forall2 (fun row post =>
                  note_id post = row_note_id row
                  /\ forall s, row_liked_count row = Some s ->
                               int_of_str world s = None -> liked_count post = 0)
          rows posts)
  /\ (length rows <= Z.to_nat limit)%nat
  /\ (forall row, row ∈ rows ->
        (exists table, xhs_note world = Returns table /\ row ∈ table)
        /\ row_source_keyword row = Some (keyword self)
        /\ exists s, row_liked_count row = Some s /\ s <> EmptyString)
  /\ (forall table row,
        xhs_note world = Returns table ->
        (length (filter (where_clause (keyword self)) table) <= Z.to_nat limit)%nat ->
        row ∈ table -> where_clause (keyword self) row = true -> row ∈ rows).
Proof.
  intros Hplain Hq Hcounts. split; [|split; [|split]].
  - assert (exists posts,
              Forall2 (fun row post => post_of_row world row = Returns post) rows posts)
      as [posts Hposts].
    { clear Hq. induction Hcounts as [|row rows [Hc1 Hc2] _ [posts IH]].
      - by exists [].
      - destruct (post_of_row_total world row Hc1 Hc2) as [post Hpost].
        exists (post :: posts). by constructor. }
    exists posts. split.
    + rewrite get_top_posts_outcome, Hq. apply posts_of_rows_returns. by exists posts.
    + eapply Forall2_impl; [exact Hposts|]. simpl. intros row post Hpost.
      apply post_of_row_returns in Hpost as (Hid & Hliked & _).
      split; [done|]. intros s Hs Hint.
      rewrite liked_count_of_value, Hs in Hliked. injection Hliked as <-.
      unfold int_or_zero. rewrite Hint. by destruct (PyStr.truthy s).
  - by eapply query_top_notes_length.
  - intros row Hrow.
    destruct (query_top_notes_sound world _ _ _ _ Hplain Hq Hrow) as [Hw Htable].
    unfold where_clause in Hw. apply andb_prop in Hw as [Hw _].
    apply andb_prop in Hw as [Hkw Hw].
    split; [done|]. split.
    { destruct (row_source_keyword row); [|done]. by apply String.eqb_eq in Hkw as ->. }
    destruct (sql_present_Some _ Hw) as (s & ? & _ & ?). by exists s.
  - intros table row Htable Hlen Hrow Hw.
    by eapply query_top_notes_complete.
Qed.

(** C6, the claim as stated fails: a record whose liked count is the
    empty str, on which int raises, is no row of the query and gives no
    post. *)
Example empty_liked_count_is_excluded :
  let world :=
    local_world (Returns (NotText "NoneType"))
      [record "烤肉" "n1" (Some EmptyString) (Some "http://a,http://b,http://c")] in
  int_of_str world EmptyString = None
  /\ (get_top_posts_from_db world 100 (new_generator "烤肉")).2 = Returns [].
Proof. split; reflexivity. Qed.

(** C6, amended, at a record with the liked count abc. *)
Lemma unreadable_liked_count_witness :
  let row := record "烤肉" "n1" (Some "abc") (Some "http://a") in
  let world := local_world (Returns (NotText "NoneType")) [row] in
  exists posts,
    (get_top_posts_from_db world 100 (new_generator "烤肉")).2 = Returns posts
    /\ Forall2 (fun row post =>
                 note_id post = row_note_id row
                 /\ forall s, row_liked_count row = Some s ->
                              int_of_str world s = None -> liked_count post = 0)
         [row] posts.
Proof.
  intros row world.
  apply (unreadable_liked_count_is_zero world 100 (new_generator "烤肉") [row]).
  - reflexivity.
  - reflexivity.
  - constructor; [|constructor]. split; by eexists.
Defined.

(** C8, amended. For a keyword that holds no quote and no backslash, the
    posts read from the store are those of the rows of the query, one
    for one: the post of a row comes from a record of the table and of
    the keyword whose liked count and image list are neither NULL nor
    empty. Its image list holds the pieces that the commas separate in
    the raw field, stripped, the pieces that are blank left out: no
    image is empty, and the list is empty when every piece is blank. Its
    liked count is the integer that int reads in the raw text, negative
    for a negative numeral, and 0 when int raises. *)
Theorem posts_from_store_shape (world : World) (limit : Z) (self : Generator)
    (posts : list RestaurantPost) :
  sql_plain (keyword self) = true ->
  (get_top_posts_from_db world limit self).2 = Returns posts ->
  exists table rows,
    xhs_note world = Returns table
    /\ query_top_notes world (keyword self) limit = Returns rows
    /\ Forall2 (fun row post =>
                  row ∈ table
                  /\ row_source_keyword row = Some (keyword self)
                  /\ note_id post = row_note_id row
                  /\ exists raw_liked raw_images,
                       row_liked_count row = Some raw_liked
                       /\ raw_liked <> EmptyString
                       /\ row_image_list row = Some raw_images
                       /\ raw_images <> EmptyString
                       /\ image_list post
                          = PyStr.strip <$>
                              filter nonblank (PyStr.split ","%char raw_images)
                       /\ Forall (fun img => img <> EmptyString) (image_list post)
                       /\ liked_count post = int_or_zero world raw_liked)
         rows posts.
Proof.
  intros Hplain. rewrite get_top_posts_outcome.
  destruct (query_top_notes world (keyword self) limit) as [rows|] eqn:Hq; [|done].
  intros (new & -> & Hposts)%posts_of_rows_returns. simpl.
  destruct (query_top_notes_returns world _ _ _ Hq) as (table & _ & Htable & _).
  exists table, rows. split; [done|]. split; [done|].
  apply Forall2_same_length_lookup. split; [by eapply Forall2_length|].
  intros i row post Hrow Hpost.
  pose proof (Forall2_lookup_lr _ _ _ _ _ _ Hposts Hrow Hpost) as Hconv.
  apply list_elem_of_lookup_2 in Hrow.
  destruct (query_top_notes_sound world _ _ _ _ Hplain Hq Hrow)
    as [Hw (table' & Htable' & Hin)].
  rewrite Htable in Htable'. injection Htable' as <-.
  unfold where_clause in Hw. apply andb_prop in Hw as [Hw Himg].
  apply andb_prop in Hw as [Hkw Hliked].
  destruct (sql_present_Some _ Hliked) as (raw_liked & Hl & Hlt & Hlne).
  destruct (sql_present_Some _ Himg) as (raw_images & Hi' & Hit & Hine).
  apply post_of_row_returns in Hconv as (Hid & Hlc & Him & _).
  split; [done|]. split.
  { destruct (row_source_keyword row); [|done]. by apply String.eqb_eq in Hkw as ->. }
  split; [done|]. exists raw_liked, raw_images.
  rewrite liked_count_of_value, Hl, Hlt in Hlc. injection Hlc as Hlc.
  rewrite Hi' in Him. simpl in Him. rewrite Hit in Him.
  repeat split; try done.
  rewrite Him. apply Forall_forall. intros img Himg'.
  apply list_elem_of_fmap in Himg' as (piece & -> & Hpiece).
  apply list_elem_of_filter in Hpiece as [Hnb _].
  unfold nonblank in Hnb. by destruct (PyStr.strip piece).
Qed.

(** C8, the claim as stated fails: a record with the liked count -5 and
    an image list of separators gives a post with a negative liked count
    and no image. *)
Example negative_count_and_no_image :
  let world :=
    local_world (Returns (NotText "NoneType"))
      [record "烤肉" "n1" (Some "-5") (Some " , ")] in
  (get_top_posts_from_db world 100 (new_generator "烤肉")).2
  = Returns [ {| note_id := Some "n1"; title := Some "title"; desc := Some "desc";
                 liked_count := -5; comment_count := 3; collected_count := 0;
                 image_list := []; note_url := Some "post";
                 nickname := Some "nick" |} ].
Proof. reflexivity. Qed.

(** C8, amended, at a record with two images and a blank piece. *)
Lemma posts_from_store_witness :
  let row := record "烤肉" "n1" (Some "12") (Some "http://a, ,http://b ") in
  let world := local_world (Returns (NotText "NoneType")) [row] in
  exists table rows,
    xhs_note world = Returns table
    /\ query_top_notes world "烤肉" 100 = Returns rows
    /\ Forall2 (fun row post =>
                  row ∈ table
                  /\ row_source_keyword row = Some "烤肉"
                  /\ note_id post = row_note_id row
                  /\ exists raw_liked raw_images,
                       row_liked_count row = Some raw_liked
                       /\ raw_liked <> EmptyString
                       /\ row_image_list row = Some raw_images
                       /\ raw_images <> EmptyString
                       /\ image_list post
                          = PyStr.strip <$>
                              filter nonblank (PyStr.split ","%char raw_images)
                       /\ Forall (fun img => img <> EmptyString) (image_list post)
                       /\ liked_count post = int_or_zero world raw_liked)
         rows
         [ {| note_id := Some "n1"; title := Some "title"; desc := Some "desc";
              liked_count := 12; comment_count := 3; collected_count := 0;
              image_list := ["http://a"; "http://b"]; note_url := Some "post";
              nickname := Some "nick" |} ].
Proof.
  intros row world.
  apply (posts_from_store_shape world 100 (new_generator "烤肉")); reflexivity.
Defined.

(** ** The orchestrator *)

(** The loop of lines 433-439 in closed form. *)
Lemma reference_content_spec (posts : list RestaurantPost) :
  reference_content_of posts
  = (fun post => {| ref_title := title post;
                    ref_desc := desc post;
                    ref_liked_count := liked_count post |}) <$> take 20 posts.
Proof.
  unfold reference_content_of.
  set (entry := fun post => {| ref_title := title post;
                               ref_desc := desc post;
                               ref_liked_count := liked_count post |}).
  assert (forall window acc,
            fold_left (fun reference_content post => reference_content ++ [entry post])
              window acc
            = acc ++ (entry <$> window)) as Hloop.
  { induction window as [|post rest IH]; intros acc; simpl.
    - by rewrite app_nil_r.
    - by rewrite IH, <- app_assoc. }
  apply Hloop.
Qed.

(** A candidate or a reference post without description comes from a
    post without description among the first fifty. *)
Lemma candidate_without_description (posts : list RestaurantPost) (c : Candidate) :
  c ∈ image_candidates_of posts -> post_desc c = None ->
  exists post, post ∈ take 50 posts /\ desc post = None.
Proof.
  unfold image_candidates_of. rewrite post_loop_spec. simpl.
  intros (post & Hc & Hpost)%list_elem_of_bind Hnone.
  apply list_elem_of_fmap in Hc as (u & -> & _). by exists post.
Qed.

Lemma reference_without_description (posts : list RestaurantPost) (r : Reference) :
  r ∈ reference_content_of posts -> ref_desc r = None ->
  exists post, post ∈ take 50 posts /\ desc post = None.
Proof.
  rewrite reference_content_spec.
  intros (post & -> & Hpost)%list_elem_of_fmap Hnone.
  exists post. split; [|done].
  replace (take 20 posts) with (take 20 (take 50 posts)) in Hpost
    by (by rewrite take_take).
  by apply (subseteq_take _ _ _) in Hpost.
Qed.

(** When the first fifty posts have a description, so have the
    candidates and the reference posts. *)
Lemma described_posts (posts : list RestaurantPost) :
  Forall (fun post => desc post <> None) (take 50 posts) ->
  Forall (fun c => post_desc c <> None) (take 30 (image_candidates_of posts))
  /\ Forall (fun r => ref_desc r <> None) (take 10 (reference_content_of posts)).
Proof.
  intros Hdesc. split; apply Forall_forall.
  - intros c Hc%(subseteq_take _ _ _) Hnone.
    destruct (candidate_without_description posts c Hc Hnone) as (post & Hpost & Hp).
    by destruct (Forall_not_None _ _ _ Hdesc Hpost Hp).
  - intros r Hr%(subseteq_take _ _ _) Hnone.
    destruct (reference_without_description posts r Hr Hnone) as (post & Hpost & Hp).
    by destruct (Forall_not_None _ _ _ Hdesc Hpost Hp).
Qed.

Section RunFacts.
Variable world : World.

(** The crawl of a world whose crawler succeeds. *)
Lemma crawl_xhs_posts_success (max_posts : Z) (self : Generator) :
  crawler_start world = Returns tt ->
  crawl_xhs_posts world max_posts self
  = (self,
     [LogInfo ("开始爬取小红书关键词: " +:+ keyword self);
      LogInfo "完成爬取，开始从数据库获取数据"],
     Returns tt).
Proof.
  intros Hc.
  unfold crawl_xhs_posts. unfold_M. by rewrite Hc.
Qed.

(** The selection stage: the outcome of analyze_images_content on the
    candidates of the posts; the result is stored when there is one. *)
Lemma select_best_images_result (num_images : Z) (self : Generator) :
  let r :=
    analyze_images_content world (image_candidates_of (posts self))
      (keyword self) num_images in
  select_best_images_with_ai world num_images self
  = match r.2 with
    | Returns selected =>
        ({| keyword := keyword self; posts := posts self;
            selected_images := selected;
            generated_content := generated_content self |},
         LogInfo ("使用AI筛选最佳 " +:+ PyStr.of_int num_images +:+ " 张图片")
         :: r.1.2
         ++ [LogInfo ("筛选完成，选出 " +:+ PyStr.of_int (Z.of_nat (length selected))
                      +:+ " 张图片")],
         Returns selected)
    | Raises e =>
        (self,
         LogInfo ("使用AI筛选最佳 " +:+ PyStr.of_int num_images +:+ " 张图片") :: r.1.2,
         Raises e)
    end.
Proof.
  unfold select_best_images_with_ai. unfold_M.
  by destruct (analyze_images_content _ _ _ _) as [[c log] [urls|e]].
Qed.

(** The synthesis stage, likewise. *)
Lemma generate_content_result (self : Generator) :
  let r :=
    generate_dianping_content world (reference_content_of (posts self))
      (keyword self) (selected_images self) in
  generate_dianping_content_with_ai world self
  = match r.2 with
    | Returns text =>
        ({| keyword := keyword self; posts := posts self;
            selected_images := selected_images self;
            generated_content := text |},
         LogInfo "生成大众点评风格文案" :: r.1 ++ [LogInfo "文案生成完成"],
         Returns text)
    | Raises e => (self, LogInfo "生成大众点评风格文案" :: r.1, Raises e)
    end.
Proof.
  unfold generate_dianping_content_with_ai. unfold_M.
  by destruct (generate_dianping_content _ _ _ _) as [log [text|e]].
Qed.

(** The outcome of run in a world whose crawl, query, conversion and
    close succeed: the no data error for an empty list of posts, and
    otherwise what the selection and then the synthesis leave. *)
Lemma run_outcome (self : Generator) (rows : list Row) (posts : list RestaurantPost) :
  crawler_start world = Returns tt ->
  query_top_notes world (keyword self) 100 = Returns rows ->
  posts_of_rows world rows [] = Returns posts ->
  db_close world = Returns tt ->
  (run world self).2
  = match posts with
    | [] => Raises no_data
    | _ =>
        match (analyze_images_content world (image_candidates_of posts)
                 (keyword self) 9).2 with
        | Raises e => Raises e
        | Returns images =>
            match (generate_dianping_content world (reference_content_of posts)
                     (keyword self) images).2 with
            | Raises e => Raises e
            | Returns text =>
                Returns {| result_keyword := keyword self;
                           total_posts := Z.of_nat (length posts);
                           result_selected_images := images;
                           content := text;
                           top_posts :=
                             (fun post => (title post, liked_count post, note_url post))
                               <$> take 10 posts |}
            end
        end
    end.
Proof.
  intros Hcrawl Hquery Hposts Hclose.
  unfold run, finally, log_and_reraise. unfold mbind at 1 2, M_bind at 1 2.
  rewrite crawl_xhs_posts_success by done.
  rewrite (get_top_posts_success world 100 self rows posts) by done.
  unfold lift. rewrite Hclose.
  destruct posts as [|post posts']; [done|].
  set (posts := post :: posts') in *.
  unfold mbind at 1, M_bind at 1. rewrite select_best_images_result. simpl.
  destruct (analyze_images_content _ _ _ _).2 as [images|e];
    [|by destruct (caught e)].
  unfold mbind at 1, M_bind at 1. rewrite generate_content_result. simpl.
  destruct (generate_dianping_content _ _ _ _).2 as [text|e];
    [done | by destruct (caught e)].
Qed.


End RunFacts.


(** An exception that derives from BaseException only makes run fail as
    well: with one post in the store, a KeyboardInterrupt raised by the
    local backend during the selection is the outcome of run. *)
Example interrupt_makes_run_fail :
  let world :=
    local_world (Raises (Exc KeyboardInterrupt EmptyString))
      [record "烤肉" "n1" (Some "12") (Some "http://a")] in
  (run world (new_generator "烤肉")).2 = Raises (Exc KeyboardInterrupt EmptyString)
  /\ length (posts (run world (new_generator "烤肉")).1.1) = 1%nat.
Proof. split; reflexivity. Qed.




(** ** Further properties *)

(** The loop over a list of rows that begins with rows that convert goes
    on with the rows behind them. *)
Lemma posts_of_rows_app (world : World) (before rest : list Row)
    (acc converted : list RestaurantPost) :
  posts_of_rows world before acc = Returns converted ->
  posts_of_rows world (before ++ rest) acc = posts_of_rows world rest converted.
Proof.
  revert acc. induction before as [|row before IH]; intros acc; simpl.
  - by intros [= <-].
  - destruct (post_of_row world row) as [post|e]; [apply IH | done].
Qed.

(** X1. The comment count is converted without a handler. When the rows
    before a row convert and the comment count of that row is a str,
    not empty, on which int raises, get_top_posts_from_db raises the
    ValueError of int: it logs the error, returns no post, not even
    those of the rows before, and leaves the generator as it was. *)
Theorem unreadable_comment_count_raises (world : World) (limit : Z)
    (self : Generator) (before : list Row) (row : Row) (after : list Row)
    (s : string) :
  query_top_notes world (keyword self) limit = Returns (before ++ row :: after) ->
  (exists converted, posts_of_rows world before [] = Returns converted) ->
  row_comment_count row = Some s ->
  s <> EmptyString ->
  int_of_str world s = None ->
  get_top_posts_from_db world limit self
  = (self,
     [LogInfo "从数据库获取点赞最高的帖子";
      LogError ("数据库查询出错: " +:+ int_error world s)],
     Raises (Exc ValueError (int_error world s))).
Proof.
  intros Hq [converted Hbefore] Hc Hs Hint.
  unfold get_top_posts_from_db. unfold_M.
  rewrite Hq. simpl. rewrite (posts_of_rows_app _ _ _ _ _ Hbefore). simpl.
  unfold post_of_row.
  rewrite liked_count_of_value, Hc. unfold int_or_0. rewrite Hint.
  by destruct s.
Qed.

(** X1 at a second record whose comment count is 1.2万. *)
Lemma unreadable_comment_count_witness :
  let row :=
    {| row_source_keyword := Some "烤肉"; row_note_id := Some "n2";
       row_title := Some "title"; row_desc := Some "desc";
       row_liked_count := Some "12"; row_comment_count := Some "1.2万";
       row_collected_count := None; row_image_list := Some "http://b";
       row_note_url := Some "post"; row_nickname := Some "nick" |} in
  let world :=
    local_world (Returns (NotText "NoneType"))
      [record "烤肉" "n1" (Some "50") (Some "http://a"); row] in
  get_top_posts_from_db world 100 (new_generator "烤肉")
  = (new_generator "烤肉",
     [LogInfo "从数据库获取点赞最高的帖子";
      LogError "数据库查询出错: invalid literal for int() with base 10: '1.2万'"],
     Raises (Exc ValueError "invalid literal for int() with base 10: '1.2万'")).
Proof.
  intros row world.
  apply (unreadable_comment_count_raises world 100 (new_generator "烤肉")
           [record "烤肉" "n1" (Some "50") (Some "http://a")] row [] "1.2万");
    [reflexivity | by eexists | reflexivity | discriminate | reflexivity].
Defined.

(** Three posts with the liked counts 50, 200 and 10 and two images
    each, no cloud credential and a local backend that refuses the
    connection: run returns the six images, those of the post with 200
    first, then 50, then 10, and the template text for the keyword. *)
Example run_with_backends_down :
  let world :=
    local_world (Raises (Exc (OtherException "ConnectionError") "refused"))
      [record "烤肉" "n1" (Some "50") (Some "http://a1,http://a2");
       record "烤肉" "n2" (Some "200") (Some "http://b1,http://b2");
       record "烤肉" "n3" (Some "10") (Some "http://c1,http://c2")] in
  (run world (new_generator "烤肉")).2
  = Returns {| result_keyword := "烤肉";
               total_posts := 3;
               result_selected_images :=
                 ["http://b1"; "http://b2"; "http://a1"; "http://a2";
                  "http://c1"; "http://c2"];
               content := _generate_template_content [] "烤肉";
               top_posts := [(Some "title", 200, Some "post");
                             (Some "title", 50, Some "post");
                             (Some "title", 10, Some "post")] |}.
Proof. vm_compute. reflexivity. Qed.

(** The posts come in the order of the store, by its own conversion
    of the liked count, while the liked count of a post is what int
    reads: with a store that converts the leading digits, the records 5
    and 12abc give the posts with the liked counts 0 and 5 in that order,
    so the list of posts is not descending by liked count. *)
Example posts_follow_store_order :
  let world :=
    local_world (Returns (NotText "NoneType"))
      [record "烤肉" "n1" (Some "5") (Some "http://a");
       record "烤肉" "n2" (Some "12abc") (Some "http://b")] in
  exists posts,
    (get_top_posts_from_db world 100 (new_generator "烤肉")).2 = Returns posts
    /\ note_id <$> posts = [Some "n2"; Some "n1"]
    /\ liked_count <$> posts = [0; 5].
Proof. eexists. repeat split. Qed.

(** ** The ways out of the generator's methods *)

Section MethodFacts.
Variable world : World.

(** crawl_xhs_posts never touches the generator. *)
Lemma crawl_xhs_posts_cases (max_posts : Z) (self : Generator) :
  crawl_xhs_posts world max_posts self
  = match crawler_start world with
    | Returns _ =>
        (self,
         [LogInfo ("开始爬取小红书关键词: " +:+ keyword self);
          LogInfo "完成爬取，开始从数据库获取数据"],
         Returns tt)
    | Raises e =>
        (self,
         LogInfo ("开始爬取小红书关键词: " +:+ keyword self)
         :: (if caught e then [LogError ("爬虫执行出错: " +:+ exc_message e)] else []),
         Raises e)
    end.
Proof.
  unfold crawl_xhs_posts. unfold_M.
  destruct (crawler_start world) as [[]|e]; [done|]. by destruct (caught e).
Qed.

(** get_top_posts_from_db assigns the posts when it returns them and
    nothing when it raises. *)
Lemma get_top_posts_cases (limit : Z) (self : Generator) :
  get_top_posts_from_db world limit self
  = match (match query_top_notes world (keyword self) limit with
           | Returns rows => posts_of_rows world rows []
           | Raises e => Raises e
           end) with
    | Returns posts =>
        ({| keyword := keyword self; posts := posts;
            selected_images := selected_images self;
            generated_content := generated_content self |},
         [LogInfo "从数据库获取点赞最高的帖子";
          LogInfo ("获取到 " +:+ PyStr.of_int (Z.of_nat (length posts)) +:+ " 个帖子")],
         Returns posts)
    | Raises e =>
        (self,
         LogInfo "从数据库获取点赞最高的帖子"
         :: (if caught e then [LogError ("数据库查询出错: " +:+ exc_message e)] else []),
         Raises e)
    end.
Proof.
  unfold get_top_posts_from_db. unfold_M.
  destruct (query_top_notes _ _ _) as [rows|e]; simpl; [|by destruct (caught e)].
  destruct (posts_of_rows world rows []) as [posts|e]; simpl; [done|].
  by destruct (caught e).
Qed.

(** A run that returns: the posts, the images and the text behind the
    result, and the attributes of the generator afterwards. *)
Lemma run_returns_inv (self : Generator) (result : CurationResult) :
  (run world self).2 = Returns result ->
  exists posts images text,
    posts <> []
    /\ (get_top_posts_from_db world 100 self).2 = Returns posts
    /\ (analyze_images_content world (image_candidates_of posts)
          (keyword self) 9).2 = Returns images
    /\ (generate_dianping_content world (reference_content_of posts)
          (keyword self) images).2 = Returns text
    /\ (run world self).1.1
       = {| keyword := keyword self; posts := posts;
            selected_images := images; generated_content := text |}
    /\ result
       = {| result_keyword := keyword self;
            total_posts := Z.of_nat (length posts);
            result_selected_images := images;
            content := text;
            top_posts :=
              (fun post => (title post, liked_count post, note_url post))
                <$> take 10 posts |}.
Proof.
  remember (run world self) as outcome_of_run eqn:Hrun. intros Hres.
  unfold run, finally, log_and_reraise in Hrun.
  unfold mbind at 1 2, M_bind at 1 2 in Hrun.
  rewrite crawl_xhs_posts_cases in Hrun.
  destruct (crawler_start world) as [[]|e].
  2:{ destruct (caught e), (db_close world); by subst. }
  rewrite get_top_posts_cases in Hrun.
  rewrite (get_top_posts_cases 100 self).
  destruct (match query_top_notes world (keyword self) 100 with
            | Returns rows => posts_of_rows world rows []
            | Raises e => Raises e
            end) as [posts|e].
  2:{ destruct (caught e), (db_close world); by subst. }
  destruct posts as [|post posts'].
  { simpl in Hrun. destruct (db_close world); by subst. }
  set (posts := post :: posts') in *.
  unfold mbind at 1, M_bind at 1 in Hrun.
  rewrite select_best_images_result in Hrun. simpl in Hrun.
  destruct (analyze_images_content _ _ _ _).2 as [images|e] eqn:Hsel.
  2:{ destruct (caught e), (db_close world); by subst. }
  unfold mbind at 1, M_bind at 1 in Hrun.
  rewrite generate_content_result in Hrun. simpl in Hrun.
  destruct (generate_dianping_content _ _ _ _).2 as [text|e] eqn:Hsyn.
  2:{ destruct (caught e), (db_close world); by subst. }
  unfold lift in Hrun. destruct (db_close world) as [[]|e]; [|by subst].
  subst outcome_of_run. simpl in Hres. injection Hres as <-.
  exists posts, images, text. by repeat split.
Qed.

End MethodFacts.

(** The number of posts is that of the rows, at most the limit. *)
Lemma get_top_posts_length (world : World) (limit : Z) (self : Generator)
    (posts : list RestaurantPost) :
  (get_top_posts_from_db world limit self).2 = Returns posts ->
  (length posts <= Z.to_nat limit)%nat.
Proof.
  rewrite get_top_posts_outcome.
  destruct (query_top_notes world (keyword self) limit) as [rows|] eqn:Hq; [|done].
  intros (new & -> & Hposts)%posts_of_rows_returns. simpl.
  rewrite <- (Forall2_length _ _ _ Hposts).
  by eapply query_top_notes_length.
Qed.

(** A selection that returns gives at most the target number of URLs. *)
Lemma analyze_images_content_length (world : World) (image_candidates : list Candidate)
    (keyword : string) (num_images : Z) (urls : list string) :
  0 <= num_images ->
  (analyze_images_content world image_candidates keyword num_images).2 = Returns urls ->
  (length urls <= Z.to_nat num_images)%nat.
Proof.
  intros Hn Hurls.
  pose proof (analyze_images_content_cases world image_candidates keyword num_images)
    as Hcases. simpl in Hcases. unfold selection_attempt in Hcases.
  assert (length (_heuristic_image_selection image_candidates num_images).2
          <= Z.to_nat num_images)%nat as Hfallback.
  { rewrite heuristic_selection_closed_form, length_take. lia. }
  destruct (selection_prompt _ _ _) as [request|e0]; [|by rewrite Hcases in Hurls].
  destruct (backend_response _ _) as [[response|type_name]|e].
  - rewrite Hcases in Hurls. injection Hurls as <-.
    unfold slice_to. destruct (Z.ltb_spec num_images 0); [lia|].
    rewrite length_take. lia.
  - simpl in Hcases. rewrite Hcases in Hurls. by injection Hurls as <-.
  - destruct (caught e); rewrite Hcases in Hurls; [|done]. by injection Hurls as <-.
Qed.

(** X5. The close of the database runs on every way out of run, and an
    exception it raises is the outcome of run, in place of the result or
    of the error of the body. *)
Theorem close_error_is_outcome_of_run (world : World) (self : Generator) (e : exc) :
  db_close world = Raises e -> (run world self).2 = Raises e.
Proof.
  intros Hclose. unfold run, finally.
  destruct (log_and_reraise _ _ self) as [[self1 log1] r].
  unfold lift. by rewrite Hclose.
Qed.

(** X5 at a store that answers and a close that fails. *)
Lemma close_error_witness :
  let world :=
    store_world (Returns tt)
      (Returns [record "烤肉" "n1" (Some "12") (Some "https://a")])
      (Raises (Exc (OtherException "OperationalError") "gone away")) in
  (run world (new_generator "烤肉")).2
  = Raises (Exc (OtherException "OperationalError") "gone away").
Proof.
  intros world.
  by apply (close_error_is_outcome_of_run world (new_generator "烤肉")).
Defined.

(** X6. An exception of the crawl, or of the reading of the posts after
    a crawl that succeeded, is the outcome of run as it was raised, class
    and message: run does not wrap it. The generator is left as it was,
    so neither the selection nor the synthesis has assigned anything. *)
Theorem store_error_leaves_run_unchanged (world : World) (self : Generator) (e : exc) :
  db_close world = Returns tt ->
  (crawl_xhs_posts world 100 self).2 = Raises e
  \/ ((crawl_xhs_posts world 100 self).2 = Returns tt
      /\ (get_top_posts_from_db world 100 self).2 = Raises e) ->
  (run world self).2 = Raises e /\ (run world self).1.1 = self.
Proof.
  intros Hclose Herr.
  remember (run world self) as outcome_of_run eqn:Hrun.
  unfold run, finally, log_and_reraise in Hrun.
  unfold mbind at 1 2, M_bind at 1 2 in Hrun.
  rewrite crawl_xhs_posts_cases in *. unfold lift in Hrun. rewrite Hclose in Hrun.
  destruct (crawler_start world) as [[]|e1]; simpl in *.
  - destruct Herr as [|[_ Herr]]; [done|].
    rewrite get_top_posts_cases in *.
    destruct (match query_top_notes world (keyword self) 100 with
              | Returns rows => posts_of_rows world rows []
              | Raises e => Raises e
              end) as [posts|e2]; [done|].
    simpl in Herr. injection Herr as ->. destruct (caught e); by subst.
  - destruct Herr as [Herr|[? _]]; [|done].
    injection Herr as ->. destruct (caught e); by subst.
Qed.

(** X6 at a table that cannot be read. *)
Lemma store_error_witness :
  let e := Exc (OtherException "OperationalError") "lost connection" in
  let world := store_world (Returns tt) (Raises e) (Returns tt) in
  (run world (new_generator "烤肉")).2 = Raises e
  /\ (run world (new_generator "烤肉")).1.1 = new_generator "烤肉".
Proof.
  intros e world.
  apply (store_error_leaves_run_unchanged world (new_generator "烤肉") e);
    [reflexivity | right; split; reflexivity].
Defined.

(** X7. When run returns, its result agrees with the attributes the
    generator holds afterwards: the keyword is unchanged, total_posts
    counts the posts, between 1 and 100, selected_images are the at most
    nine images selected, content is the generated text, and top_posts
    are the title, liked count and URL of the first ten posts. *)
Theorem run_result_matches_generator (world : World) (self : Generator)
    (result : CurationResult) :
  (run world self).2 = Returns result ->
  let after := (run world self).1.1 in
  keyword after = keyword self
  /\ result_keyword result = keyword self
  /\ total_posts result = Z.of_nat (length (posts after))
  /\ 1 <= total_posts result <= 100
  /\ result_selected_images result = selected_images after
  /\ (length (selected_images after) <= 9)%nat
  /\ content result = generated_content after
  /\ top_posts result
     = (fun post => (title post, liked_count post, note_url post))
         <$> take 10 (posts after)
  /\ length (top_posts result) = Nat.min 10 (length (posts after)).
Proof.
  intros Hres after.
  destruct (run_returns_inv world self result Hres)
    as (posts & images & text & Hne & Hposts & Hsel & Hsyn & Hafter & ->).
  unfold after. rewrite Hafter. simpl.
  apply get_top_posts_length in Hposts.
  apply analyze_images_content_length in Hsel; [|lia].
  repeat split; try done; try lia.
  - destruct posts; [done | simpl; lia].
  - by rewrite length_fmap, length_take.
Qed.

(** X7 at a store of one record and a local backend that answers. *)
Lemma run_result_witness :
  let world :=
    store_world (Returns tt)
      (Returns [record "烤肉" "n1" (Some "12") (Some "https://a")]) (Returns tt) in
  let result :=
    {| result_keyword := "烤肉"; total_posts := 1;
       result_selected_images := ["https://cdn/x.jpg"];
       content := "https://cdn/x.jpg";
       top_posts := [(Some "title", 12, Some "post")] |} in
  let after := (run world (new_generator "烤肉")).1.1 in
  result_selected_images result = selected_images after
  /\ content result = generated_content after
  /\ total_posts result = Z.of_nat (length (posts after)).
Proof.
  intros world result after.
  pose proof (run_result_matches_generator world (new_generator "烤肉") result
                eq_refl) as H.
  simpl in H. tauto.
Defined.

(** ** A post without description *)

(** X4. One post without description is enough to stop the pipeline,
    whatever the backends do. When the crawl, the query, the conversion
    of the rows and the close succeed and one of the first thirty
    candidates comes from a post whose description is None, run raises
    the TypeError of the slice of that description in the selection
    stage: the posts are stored, no image is selected, no text is
    generated, no fallback runs and no warning is logged. *)
Theorem missing_description_aborts_run (world : World) (self : Generator)
    (rows : list Row) (posts : list RestaurantPost) (c : Candidate) :
  crawler_start world = Returns tt ->
  query_top_notes world (keyword self) 100 = Returns rows ->
  posts_of_rows world rows [] = Returns posts ->
  db_close world = Returns tt ->
  c ∈ take 30 (image_candidates_of posts) ->
  post_desc c = None ->
  run world self
  = ({| keyword := keyword self; posts := posts;
        selected_images := selected_images self;
        generated_content := generated_content self |},
     [LogInfo ("开始爬取小红书关键词: " +:+ keyword self);
      LogInfo "完成爬取，开始从数据库获取数据";
      LogInfo "从数据库获取点赞最高的帖子";
      LogInfo ("获取到 " +:+ PyStr.of_int (Z.of_nat (length posts)) +:+ " 个帖子");
      LogInfo "使用AI筛选最佳 9 张图片";
      LogError "任务执行失败: 'NoneType' object is not subscriptable"],
     Raises not_subscriptable).
Proof.
  intros Hcrawl Hquery Hposts Hclose Hc Hnone.
  unfold run, finally, log_and_reraise. unfold mbind at 1 2, M_bind at 1 2.
  rewrite crawl_xhs_posts_success by done.
  rewrite (get_top_posts_success world 100 self rows posts) by done.
  unfold lift. rewrite Hclose.
  destruct posts as [|post posts']; [by apply elem_of_nil in Hc|].
  set (all := post :: posts') in *.
  unfold mbind at 1, M_bind at 1. rewrite select_best_images_result. simpl.
  by rewrite (analyze_images_content_not_built world _ (keyword self) 9 c Hc Hnone).
Qed.

(** X4 at a store of two records of which the second has no
    description, and a local backend that would answer. *)
Lemma missing_description_witness :
  let world :=
    local_world (Returns (Text "http://a"))
      [record "烤肉" "n1" (Some "50") (Some "http://a");
       record_without_desc "烤肉" "n2" (Some "7") (Some "http://b")] in
  (run world (new_generator "烤肉")).2
  = Raises (Exc TypeError "'NoneType' object is not subscriptable")
  /\ length (posts (run world (new_generator "烤肉")).1.1) = 2%nat
  /\ selected_images (run world (new_generator "烤肉")).1.1 = [].
Proof.
  intros world.
  rewrite (missing_description_aborts_run world (new_generator "烤肉")
             [record "烤肉" "n1" (Some "50") (Some "http://a");
              record_without_desc "烤肉" "n2" (Some "7") (Some "http://b")]
             _
             {| url := "http://b"; post_title := Some "title"; post_desc := None;
                cand_liked_count := 7; post_url := Some "post" |}
             eq_refl eq_refl eq_refl eq_refl);
    [repeat split | right; left | reflexivity].
Defined.

(** ** The choice of the backend *)

Section BackendChoice.
Variable world : World.

Lemma backend_response_cloud (f : string -> outcome reply) (prompt : string) :
  use_openai world = true ->
  backend_response (with_requests_post world f) prompt = backend_response world prompt.
Proof.
  intros Huse. unfold backend_response.
  change (use_openai (with_requests_post world f)) with (use_openai world).
  by rewrite Huse.
Qed.

Lemma backend_response_local (f : string -> outcome reply) (prompt : string) :
  use_openai world = false ->
  backend_response (with_openai_chat world f) prompt = backend_response world prompt.
Proof.
  intros Huse. unfold backend_response.
  change (use_openai (with_openai_chat world f)) with (use_openai world).
  by rewrite Huse.
Qed.

(** The two operations read the world through backend_response only. *)
Lemma operations_by_backend_response (other : World) :
  (forall prompt, backend_response other prompt = backend_response world prompt) ->
  forall image_candidates reference_posts keyword num_images selected_images,
    analyze_images_content other image_candidates keyword num_images
    = analyze_images_content world image_candidates keyword num_images
    /\ generate_dianping_content other reference_posts keyword selected_images
       = generate_dianping_content world reference_posts keyword selected_images.
Proof.
  intros Hsame image_candidates reference_posts keyword num_images selected_images.
  unfold analyze_images_content, generate_dianping_content, selection_attempt,
    synthesis_attempt.
  split.
  - destruct (selection_prompt _ _ _) as [request|e]; [|done]. by rewrite Hsame.
  - destruct (synthesis_prompt _ _ _) as [request|e]; [|done]. by rewrite Hsame.
Qed.

End BackendChoice.

(** X8. The outcome of the two operations depends on the backend chosen
    and not on the other one. With a credential that is not empty and
    the openai package, the selection and the synthesis are the same
    whatever the local backend would do; when the cloud call raises an
    instance of Exception, the selection is the fallback selection, with
    a warning that carries the error of the cloud call, also when the
    local backend would have answered. Without the credential or the
    package, the two operations are the same whatever the cloud backend
    would do. *)
Theorem other_backend_does_not_matter (world : World)
    (f : string -> outcome reply)
    (image_candidates : list Candidate) (reference_posts : list Reference)
    (keyword : string) (num_images : Z) (selected_images : list string) :
  let fallback := _heuristic_image_selection image_candidates num_images in
  (use_openai world = true ->
   analyze_images_content (with_requests_post world f) image_candidates keyword
     num_images
   = analyze_images_content world image_candidates keyword num_images
   /\ generate_dianping_content (with_requests_post world f) reference_posts keyword
        selected_images
      = generate_dianping_content world reference_posts keyword selected_images
   /\ forall request e,
        selection_prompt image_candidates keyword num_images = Returns request ->
        openai_chat world request = Raises e ->
        caught e = true ->
        analyze_images_content (with_requests_post world f) image_candidates keyword
          num_images
        = (fallback.1,
           [LogWarning ("AI图片筛选失败，使用启发式方法: OpenAI API调用失败: "
                        +:+ exc_message e)],
           Returns fallback.2))
  /\ (use_openai world = false ->
      analyze_images_content (with_openai_chat world f) image_candidates keyword
        num_images
      = analyze_images_content world image_candidates keyword num_images
      /\ generate_dianping_content (with_openai_chat world f) reference_posts keyword
           selected_images
         = generate_dianping_content world reference_posts keyword selected_images).
Proof.
  intros fallback. split; intros Huse.
  - destruct (operations_by_backend_response world (with_requests_post world f)
                (fun prompt => backend_response_cloud world f prompt Huse)
                image_candidates reference_posts keyword num_images selected_images)
      as [Hsel Hsyn].
    split; [done|]. split; [done|].
    intros request e Hrequest Hchat Hcaught. rewrite Hsel.
    unfold analyze_images_content, selection_attempt, backend_response, _call_openai.
    rewrite Hrequest, Huse, Hchat, Hcaught. simpl.
    fold fallback. by destruct fallback.
  - apply operations_by_backend_response. intros prompt.
    by apply backend_response_local.
Qed.

(** X8 with a cloud call that fails and a local backend that would
    answer: the fallback runs. *)
Lemma other_backend_witness :
  let world :=
    {| HAS_OPENAI := true; HAS_REQUESTS := true; openai_api_key := Some "sk-1";
       openai_chat := fun _ => Raises (Exc (OtherException "APIError") "quota");
       requests_post := fun _ => Raises (Exc (OtherException "ConnectionError") "refused");
       crawler_start := Returns tt; xhs_note := Returns [];
       cast_unsigned := leading_digits 0;
       spliced_condition := fun _ => Returns (fun _ => false);
       int_of_str := ascii_int; int_error := invalid_literal;
       db_close := Returns tt |} in
  let answering := fun _ : string => Returns (Text "https://cdn/x.jpg") in
  analyze_images_content (with_requests_post world answering)
    [candidate "https://a" 1] "烤肉" 9
  = ([candidate "https://a" 1],
     [LogWarning "AI图片筛选失败，使用启发式方法: OpenAI API调用失败: quota"],
     Returns ["https://a"]).
Proof.
  intros world answering.
  eapply (proj2 (proj2 (proj1 (other_backend_does_not_matter world answering
                                 [candidate "https://a" 1] [] "烤肉" 9 []) eq_refl))
            _ (Exc (OtherException "APIError") "quota"));
    reflexivity.
Defined.

(** X9. Without a usable cloud backend and without the requests package,
    and with descriptions in place so that the requests are built, the
    selection is the fallback selection and the synthesis the template,
    each with a warning that names the missing package, whatever the
    two backends would answer. *)
Theorem missing_requests_package_falls_back (world : World)
    (image_candidates : list Candidate) (reference_posts : list Reference)
    (keyword : string) (num_images : Z) (selected_images : list string) :
  use_openai world = false ->
  HAS_REQUESTS world = false ->
  Forall (fun c => post_desc c <> None) (take 30 image_candidates) ->
  Forall (fun r => ref_desc r <> None) (take 10 reference_posts) ->
  let fallback := _heuristic_image_selection image_candidates num_images in
  analyze_images_content world image_candidates keyword num_images
  = (fallback.1,
     [LogWarning "AI图片筛选失败，使用启发式方法: requests库未安装，无法调用本地模型"],
     Returns fallback.2)
  /\ generate_dianping_content world reference_posts keyword selected_images
     = ([LogWarning "AI文案生成失败，使用模板方法: requests库未安装，无法调用本地模型"],
        Returns (_generate_template_content reference_posts keyword)).
Proof.
  intros Huse Hreq Hcands Hrefs fallback.
  destruct (selection_prompt_returns _ keyword num_images Hcands) as [request1 H1].
  destruct (synthesis_prompt_returns _ keyword selected_images Hrefs) as [request2 H2].
  unfold analyze_images_content, generate_dianping_content, selection_attempt,
    synthesis_attempt, backend_response, _call_local_model.
  rewrite H1, H2, Huse, Hreq. simpl. fold fallback. by destruct fallback.
Qed.

(** X9 in a world with neither package nor credential. *)
Lemma missing_requests_package_witness :
  let world :=
    {| HAS_OPENAI := false; HAS_REQUESTS := false; openai_api_key := None;
       openai_chat := fun _ => Returns (Text "https://cdn/x.jpg");
       requests_post := fun _ => Returns (Text "https://cdn/x.jpg");
       crawler_start := Returns tt; xhs_note := Returns [];
       cast_unsigned := leading_digits 0;
       spliced_condition := fun _ => Returns (fun _ => false);
       int_of_str := ascii_int; int_error := invalid_literal;
       db_close := Returns tt |} in
  analyze_images_content world [candidate "https://a" 1; candidate "https://b" 5] "烤肉" 1
  = ([candidate "https://b" 5; candidate "https://a" 1],
     [LogWarning "AI图片筛选失败，使用启发式方法: requests库未安装，无法调用本地模型"],
     Returns ["https://b"]).
Proof.
  intros world.
  apply (missing_requests_package_falls_back world
           [candidate "https://a" 1; candidate "https://b" 5] [] "烤肉" 1 []);
    try reflexivity; repeat constructor; discriminate.
Defined.

(** ** The pipeline without a backend *)

(** With backends that fail and descriptions in place, each operation is
    its fallback. *)
Lemma operations_with_failing_backends (world : World)
    (image_candidates : list Candidate) (reference_posts : list Reference)
    (keyword : string) (num_images : Z) (selected_images : list string) :
  backends_fail world ->
  Forall (fun c => post_desc c <> None) (take 30 image_candidates) ->
  Forall (fun r => ref_desc r <> None) (take 10 reference_posts) ->
  (analyze_images_content world image_candidates keyword num_images).2
  = Returns (_heuristic_image_selection image_candidates num_images).2
  /\ (generate_dianping_content world reference_posts keyword selected_images).2
     = Returns (_generate_template_content reference_posts keyword).
Proof.
  intros Hfail Hcands Hrefs.
  destruct (selection_prompt_returns _ keyword num_images Hcands) as [request1 Hr1].
  destruct (synthesis_prompt_returns _ keyword selected_images Hrefs) as [request2 Hr2].
  pose proof (Hfail request1) as H1. pose proof (Hfail request2) as H2.
  unfold analyze_images_content, generate_dianping_content, selection_attempt,
    synthesis_attempt. rewrite Hr1, Hr2.
  destruct (backend_response world request1) as [[?|?]|e1]; [done| |];
    destruct (backend_response world request2) as [[?|?]|e2];
    try done; simpl; rewrite ?H1, ?H2;
    by destruct (_heuristic_image_selection image_candidates num_images).
Qed.

(** X2. With posts in the store, each of the first fifty with a
    description, and backends that fail, run completes on its fallbacks:
    the images are the fallback selection of nine among the candidates
    of the posts, and the text is the template for the keyword. *)
Theorem run_completes_on_fallbacks (world : World) (self : Generator)
    (rows : list Row) (posts : list RestaurantPost) :
  crawler_start world = Returns tt ->
  query_top_notes world (keyword self) 100 = Returns rows ->
  posts_of_rows world rows [] = Returns posts ->
  posts <> [] ->
  Forall (fun post => desc post <> None) (take 50 posts) ->
  db_close world = Returns tt ->
  backends_fail world ->
  (run world self).2
  = Returns {| result_keyword := keyword self;
               total_posts := Z.of_nat (length posts);
               result_selected_images :=
                 (_heuristic_image_selection (image_candidates_of posts) 9).2;
               content :=
                 _generate_template_content (reference_content_of posts) (keyword self);
               top_posts :=
                 (fun post => (title post, liked_count post, note_url post))
                   <$> take 10 posts |}.
Proof.
  intros Hcrawl Hquery Hposts Hne Hdesc Hclose Hfail.
  rewrite (run_outcome world self rows posts) by done.
  destruct posts as [|post posts']; [done|].
  set (all := post :: posts') in *.
  destruct (described_posts _ Hdesc) as [Hcands Hrefs].
  destruct (operations_with_failing_backends world (image_candidates_of all)
              (reference_content_of all) (keyword self) 9
              (_heuristic_image_selection (image_candidates_of all) 9).2 Hfail
              Hcands Hrefs)
    as [Hsel Hsyn].
  by rewrite Hsel, Hsyn.
Qed.

(** X2 at three posts with the liked counts 50, 200 and 10 and two
    images each, and a local backend that refuses the connection. *)
Lemma run_completes_on_fallbacks_witness :
  let table :=
    [record "烤肉" "n1" (Some "50") (Some "http://a1,http://a2");
     record "烤肉" "n2" (Some "200") (Some "http://b1,http://b2");
     record "烤肉" "n3" (Some "10") (Some "http://c1,http://c2")] in
  let world :=
    local_world (Raises (Exc (OtherException "ConnectionError") "refused")) table in
  exists result,
    (run world (new_generator "烤肉")).2 = Returns result
    /\ result_selected_images result
       = ["http://b1"; "http://b2"; "http://a1"; "http://a2"; "http://c1"; "http://c2"]
    /\ total_posts result = 3.
Proof.
  intros table world. eexists. split.
  - eapply (run_completes_on_fallbacks world (new_generator "烤肉")); try reflexivity.
    + discriminate.
    + repeat constructor; discriminate.
    + intros prompt. reflexivity.
  - split; reflexivity.
Defined.

(** ** What the prompts read *)

(** X10. The request of the selection reads the first thirty candidates
    only: two lists that agree on them give the same request, or the
    same error, and with it the same try block. The synthesis reads the
    first ten reference posts and the number of the selected images
    only: its outcome and its log are the same for two reference lists
    that agree on their first ten posts and two image lists of one
    length. *)
Theorem prompts_read_a_window (world : World) (keyword : string) (num_images : Z)
    (candidates1 candidates2 : list Candidate)
    (references1 references2 : list Reference) (images1 images2 : list string) :
  take 30 candidates1 = take 30 candidates2 ->
  take 10 references1 = take 10 references2 ->
  length images1 = length images2 ->
  selection_prompt candidates1 keyword num_images
  = selection_prompt candidates2 keyword num_images
  /\ (forall request1 request2,
        selection_prompt candidates1 keyword num_images = Returns request1 ->
        selection_prompt candidates2 keyword num_images = Returns request2 ->
        selection_attempt world request1 num_images
        = selection_attempt world request2 num_images)
  /\ generate_dianping_content world references1 keyword images1
     = generate_dianping_content world references2 keyword images2.
Proof.
  intros Hc Hr Hi.
  assert (selection_prompt candidates1 keyword num_images
          = selection_prompt candidates2 keyword num_images) as Hprompt.
  { unfold selection_prompt. by rewrite Hc. }
  split; [done|]. split.
  - intros request1 request2 H1 H2. rewrite Hprompt, H2 in H1. by injection H1 as <-.
  - unfold generate_dianping_content, synthesis_prompt. by rewrite Hr, Hi.
Qed.

(** X10 at lists that differ behind the window. *)
Lemma prompts_read_a_window_witness :
  let candidates1 := replicate 30 (candidate "https://a" 1) in
  let references1 :=
    replicate 10 {| ref_title := Some "t"; ref_desc := Some "d"; ref_liked_count := 1 |} in
  let extra :=
    {| ref_title := Some "好吃"; ref_desc := None; ref_liked_count := 9 |} in
  let world := local_world (Returns (Text "text")) [] in
  selection_prompt candidates1 "烤肉" 9
  = selection_prompt (candidates1 ++ [candidate "https://b" 7]) "烤肉" 9
  /\ generate_dianping_content world references1 "烤肉" ["https://a"]
     = generate_dianping_content world (references1 ++ [extra]) "烤肉" ["https://b"].
Proof.
  intros candidates1 references1 extra world.
  destruct (prompts_read_a_window world "烤肉" 9 candidates1
              (candidates1 ++ [candidate "https://b" 7])
              references1 (references1 ++ [extra])
              ["https://a"] ["https://b"] eq_refl eq_refl eq_refl) as (H1 & _ & H2).
  split; [exact H1 | exact H2].
Defined.

(** ** Splitting and joining *)

(** A text without the separator is one piece. *)
Lemma split_no_separator (sep : ascii) (s : string) :
  has_char sep s = false -> PyStr.split sep s = [s].
Proof.
  induction s as [|a s IH]; simpl; [done|].
  intros [Ha Hs]%orb_false_elim. rewrite Ha, IH by done. done.
Qed.

(** Splitting behind a first piece without the separator. *)
Lemma split_app_separator (sep : ascii) (s rest : string) :
  has_char sep s = false ->
  PyStr.split sep (s +:+ String sep rest) = s :: PyStr.split sep rest.
Proof.
  induction s as [|a s IH]; intros Hs.
  - simpl. by rewrite Ascii.eqb_refl.
  - simpl in Hs. apply orb_false_elim in Hs as [Ha Hs].
    change (String a s +:+ String sep rest) with (String a (s +:+ String sep rest)).
    simpl. by rewrite Ha, IH.
Qed.

(** Splitting undoes joining with a separator that the pieces do not
    hold, except that no piece at all joins to the empty text, which
    splits into one empty piece. *)
Lemma split_join (sep : ascii) (pieces : list string) :
  Forall (fun s => has_char sep s = false) pieces ->
  PyStr.split sep (PyStr.join (String sep EmptyString) pieces)
  = match pieces with [] => [EmptyString] | _ => pieces end.
Proof.
  unfold PyStr.join.
  induction 1 as [|s pieces Hs Hpieces IH]; [done|].
  destruct pieces as [|s' pieces]; simpl.
  - by apply split_no_separator.
  - change (s +:+ String sep EmptyString +:+ ?r) with (s +:+ String sep r).
    rewrite split_app_separator by done. f_equal. exact IH.
Qed.

(** A text that starts with http is not empty. *)
Lemma startswith_http_truthy (u : string) :
  PyStr.startswith "http" u = true -> PyStr.truthy u = true.
Proof. by destruct u. Qed.

(** The lines of a response that are URLs as they stand are read back
    in their order. *)
Lemma response_urls_join (urls : list string) :
  Forall (fun u => has_char (ascii_of_nat 10) u = false
                   /\ PyStr.strip u = u
                   /\ PyStr.startswith "http" u = true) urls ->
  response_urls (PyStr.join PyStr.NL urls) = urls.
Proof.
  intros Hurls. unfold response_urls, PyStr.NL.
  rewrite split_join by (eapply Forall_impl; [exact Hurls | by intros u [? _]]).
  destruct urls as [|u0 urls0]; [done|].
  induction Hurls as [|u urls (_ & Hstrip & Hhttp) _ IH]; [done|].
  rewrite filter_cons, Hstrip, Hhttp, (startswith_http_truthy u Hhttp). simpl.
  f_equal; [done | exact IH].
Qed.

(** X11. When the backend answers the request with URLs one per line,
    each starting with http and free of line breaks and of white space
    at its ends, the selection returns the first targetCount of them in
    the order of the answer, logs nothing and leaves the candidates as
    they were. *)
Theorem selection_reads_back_the_answer (world : World)
    (image_candidates : list Candidate) (keyword : string) (num_images : Z)
    (request : string) (urls : list string) :
  0 <= num_images ->
  Forall (fun u => has_char (ascii_of_nat 10) u = false
                   /\ PyStr.strip u = u
                   /\ PyStr.startswith "http" u = true) urls ->
  selection_prompt image_candidates keyword num_images = Returns request ->
  backend_response world request = Returns (Text (PyStr.join PyStr.NL urls)) ->
  analyze_images_content world image_candidates keyword num_images
  = (image_candidates, [], Returns (take (Z.to_nat num_images) urls)).
Proof.
  intros Hn Hurls Hrequest Hanswer.
  unfold analyze_images_content, selection_attempt. rewrite Hrequest, Hanswer.
  rewrite response_urls_join by done. unfold slice_to.
  by destruct (Z.ltb_spec num_images 0); [lia|].
Qed.

(** X11 at an answer of three URLs and a target of two. *)
Lemma selection_reads_back_witness :
  let urls := ["https://cdn/1.jpg"; "http://cdn/2.jpg"; "https://cdn/3.jpg"] in
  let world := local_world (Returns (Text (PyStr.join PyStr.NL urls))) [] in
  analyze_images_content world [candidate "https://cdn/9.jpg" 4] "烤肉" 2
  = ([candidate "https://cdn/9.jpg" 4], [],
     Returns ["https://cdn/1.jpg"; "http://cdn/2.jpg"]).
Proof.
  intros urls world.
  eapply (selection_reads_back_the_answer world [candidate "https://cdn/9.jpg" 4]
            "烤肉" 2 _ urls); [lia | | reflexivity | reflexivity].
  repeat constructor.
Defined.

(** X12. An image field made of pieces joined by commas, no piece
    holding a comma, is read back as the pieces, each stripped and the
    blank ones left out; pieces that are URLs without white space at
    their ends are read back as they are. *)
Theorem images_of_join (pieces : list string) :
  Forall (fun piece => has_char ","%char piece = false) pieces ->
  images_of (Some (PyStr.join "," pieces))
  = PyStr.strip <$> filter nonblank pieces
  /\ (Forall (fun piece => PyStr.strip piece = piece /\ piece <> EmptyString) pieces ->
      images_of (Some (PyStr.join "," pieces)) = pieces).
Proof.
  intros Hpieces.
  assert (images_of (Some (PyStr.join "," pieces))
          = PyStr.strip <$> filter nonblank pieces) as Himages.
  { unfold images_of.
    destruct (PyStr.truthy (PyStr.join "," pieces)) eqn:Htruthy.
    - rewrite split_join by done. destruct pieces as [|piece pieces]; [done|].
      done.
    - destruct pieces as [|piece pieces]; [done|].
      assert (piece = EmptyString /\ pieces = []) as [-> ->].
      { unfold PyStr.join in Htruthy. simpl in Htruthy.
        destruct piece as [|a piece]; [|by destruct pieces].
        split; [done|]. by destruct pieces. }
      done. }
  split; [done|]. intros Hplain. rewrite Himages.
  clear Himages Hpieces. induction Hplain as [|piece pieces [Hstrip Hne] _ IH]; [done|].
  assert (nonblank piece = true) as Hnb.
  { unfold nonblank. rewrite Hstrip. by destruct piece. }
  rewrite filter_cons_True by (by rewrite Hnb).
  rewrite fmap_cons, Hstrip. by f_equal.
Qed.

(** X12 at a field with spaces behind the commas and a blank piece. *)
Lemma images_of_join_witness :
  images_of (Some "https://a, https://b , ,https://c")
  = ["https://a"; "https://b"; "https://c"].
Proof.
  exact (proj1 (images_of_join ["https://a"; " https://b "; " "; "https://c"]
                  ltac:(repeat constructor))).
Defined.

(** ** More on the fallback selection *)

(** X13. The fallback selection for a smaller target is the beginning
    of the selection for a larger one, the list it leaves behind is the
    same for every target, and selecting again from the list it left
    gives the same images and leaves the list as it is. *)
Theorem fallback_selection_is_stable (candidates : list Candidate) (n m : Z) :
  n <= m ->
  let small := _heuristic_image_selection candidates n in
  let large := _heuristic_image_selection candidates m in
  small.2 = take (Z.to_nat n) large.2
  /\ small.1 = large.1
  /\ _heuristic_image_selection small.1 n = small.
Proof.
  intros Hnm small large. split; [|split].
  - unfold small, large. rewrite !heuristic_selection_closed_form, take_take.
    f_equal. lia.
  - done.
  - unfold small, _heuristic_image_selection. simpl.
    by rewrite (sort_desc_sorted_id _ _ (sort_desc_sorted cand_liked_count candidates)).
Qed.

(** X13 at the targets 1 and 3. *)
Lemma fallback_selection_witness :
  let candidates := [candidate "a" 5; candidate "b" 9; candidate "c" 7] in
  (_heuristic_image_selection candidates 1).2
  = take (Z.to_nat 1) (_heuristic_image_selection candidates 3).2.
Proof.
  intros candidates.
  apply (fallback_selection_is_stable candidates 1 3). lia.
Defined.

(** The first URL that is not blank in a list in descending order comes
    from a candidate that no other with a URL that is not blank
    exceeds. *)
Lemma first_nonblank_is_top (l : list Candidate) (u : string) (rest : list string) :
  StronglySorted (descending cand_liked_count) l ->
  filter nonblank (url <$> l) = u :: rest ->
  exists c, c ∈ l /\ url c = u
            /\ forall d, d ∈ l -> nonblank (url d) = true ->
                         cand_liked_count d <= cand_liked_count c.
Proof.
  induction 1 as [|x l Hl IH Hx]; [done|].
  rewrite fmap_cons, filter_cons.
  destruct (nonblank (url x)) eqn:Hnb; simpl.
  - intros [= <- _]. exists x. split; [by left|]. split; [done|].
    intros d [->|Hd]%elem_of_cons _; [lia|].
    rewrite Forall_forall in Hx. by apply Hx.
  - intros Hrest. destruct (IH Hrest) as (c & Hc & Hu & Hmax).
    exists c. split; [by right|]. split; [done|].
    intros d [->|Hd]%elem_of_cons Hd'; [congruence | by apply Hmax].
Qed.

(** X14. When the fallback selection returns any image, the first one
    is a URL that is not blank, of a candidate whose liked count no
    candidate with a URL that is not blank exceeds. *)
Theorem fallback_selection_starts_at_the_top (candidates : list Candidate)
    (num_images : Z) (u : string) (others : list string) :
  (_heuristic_image_selection candidates num_images).2 = u :: others ->
  nonblank u = true
  /\ exists c, c ∈ candidates /\ url c = u
               /\ forall d, d ∈ candidates -> nonblank (url d) = true ->
                            cand_liked_count d <= cand_liked_count c.
Proof.
  rewrite heuristic_selection_closed_form. intros Hresult.
  destruct (filter nonblank (url <$> sort_desc cand_liked_count candidates))
    as [|v rest] eqn:Hfilter.
  { simpl in Hresult. by destruct (Z.to_nat num_images). }
  simpl in Hresult. destruct (Z.to_nat num_images); [done|].
  simpl in Hresult. injection Hresult as -> _.
  split.
  - assert (u ∈ filter nonblank (url <$> sort_desc cand_liked_count candidates))
      as Hu by (rewrite Hfilter; by left).
    apply list_elem_of_filter in Hu as [Hu _]. by apply Is_true_true.
  - destruct (first_nonblank_is_top _ _ _ (sort_desc_sorted _ candidates) Hfilter)
      as (c & Hc & Hurl & Hmax).
    exists c. rewrite sort_desc_perm in Hc. split; [done|]. split; [done|].
    intros d Hd. apply Hmax. by rewrite sort_desc_perm.
Qed.

(** X14 at three candidates of which the most liked has a blank URL. *)
Lemma fallback_selection_top_witness :
  let candidates := [candidate "a" 5; candidate " " 9; candidate "c" 7] in
  nonblank "c" = true
  /\ exists c, c ∈ candidates /\ url c = "c"
               /\ forall d, d ∈ candidates -> nonblank (url d) = true ->
                            cand_liked_count d <= cand_liked_count c.
Proof.
  intros candidates.
  apply (fallback_selection_starts_at_the_top candidates 2 "c" ["a"]).
  reflexivity.
Defined.

(** The candidates of posts in descending order are in descending order. *)
Lemma image_candidates_sorted (window : list RestaurantPost) :
  StronglySorted (descending liked_count) window ->
  StronglySorted (descending cand_liked_count)
    (window ≫= fun post => candidate_of post <$> image_list post).
Proof.
  induction 1 as [|p w Hw IH Hp]; [constructor|].
  rewrite bind_cons. apply StronglySorted_app_2; [| |done].
  - intros c d (u & -> & _)%list_elem_of_fmap Hd.
    apply list_elem_of_bind in Hd as (q & Hd & Hq).
    apply list_elem_of_fmap in Hd as (v & -> & _).
    rewrite Forall_forall in Hp. by apply Hp.
  - clear. induction (image_list p) as [|u urls IH]; [constructor|].
    rewrite fmap_cons. constructor; [done|].
    apply Forall_forall. intros d (v & -> & _)%list_elem_of_fmap.
    unfold descending. simpl. lia.
Qed.

(** X15. When the first fifty posts are in descending order of liked
    count, the fallback selection leaves their candidates in place and
    returns the first targetCount distinct image URLs that are not
    blank, in the order of the posts and of the images in each post. *)
Theorem fallback_selection_on_ranked_posts (posts : list RestaurantPost)
    (num_images : Z) :
  StronglySorted (descending liked_count) (take 50 posts) ->
  let candidates := image_candidates_of posts in
  (_heuristic_image_selection candidates num_images).1 = candidates
  /\ (_heuristic_image_selection candidates num_images).2
     = take (Z.to_nat num_images)
         (first_occurrences (filter nonblank (take 50 posts ≫= image_list))).
Proof.
  intros Hranked candidates.
  assert (candidates
          = (take 50 posts ≫= fun post => candidate_of post <$> image_list post))
    as Hc by apply post_loop_spec.
  assert (sort_desc cand_liked_count candidates = candidates) as Hsort.
  { apply sort_desc_sorted_id. rewrite Hc. by apply image_candidates_sorted. }
  split; [exact Hsort|].
  rewrite heuristic_selection_closed_form, Hsort, Hc. do 3 f_equal.
  clear. induction (take 50 posts) as [|p w IH]; [done|].
  rewrite !bind_cons, fmap_app, IH, <- list_fmap_compose. f_equal.
  by rewrite <- (list_fmap_id (image_list p)) at 2.
Qed.

(** X15 at two posts that share an image. *)
Lemma fallback_on_ranked_posts_witness :
  let post n l imgs := {| note_id := Some n; title := Some n; desc := Some "d";
                          liked_count := l; comment_count := 0; collected_count := 0;
                          image_list := imgs; note_url := Some n;
                          nickname := Some "nick" |} in
  let posts := [post "p1" 200 ["x"; "y"]; post "p2" 50 ["x"; "z"]] in
  (_heuristic_image_selection (image_candidates_of posts) 9).2 = ["x"; "y"; "z"].
Proof.
  intros post posts.
  rewrite (proj2 (fallback_selection_on_ranked_posts posts 9
                    ltac:(repeat constructor; unfold descending; simpl; lia))).
  reflexivity.
Defined.

(** ** More on the posts read from the store *)

(** The rows of the query are in descending order of the store's
    conversion of the liked count. *)
Lemma query_top_notes_sorted (world : World) (kw : string) (limit : Z)
    (rows : list Row) :
  query_top_notes world kw limit = Returns rows ->
  StronglySorted
    (descending (fun r => Z.of_N (cast_unsigned world
                                    (default EmptyString (row_liked_count r)))))
    rows.
Proof.
  intros (table & condition & _ & _ & ->)%query_top_notes_returns.
  eapply StronglySorted_app_1_l. rewrite take_drop. apply sort_desc_sorted.
Qed.

(** X3. The posts that get_top_posts_from_db returns are those of the
    rows of the query, one for one and in their order, which is
    descending in the store's own conversion of the liked count; they
    are at most [limit], and they are stored in the generator. The
    liked count of a post is what int reads, so the posts themselves
    need not be in descending order of liked count. *)
Theorem posts_in_store_order (world : World) (limit : Z) (self : Generator)
    (returned : list RestaurantPost) :
  (get_top_posts_from_db world limit self).2 = Returns returned ->
  exists rows,
    query_top_notes world (keyword self) limit = Returns rows
    /\ note_id <$> returned = row_note_id <$> rows
    /\ StronglySorted
         (descending (fun r => Z.of_N (cast_unsigned world
                                         (default EmptyString (row_liked_count r)))))
         rows
    /\ (length returned <= Z.to_nat limit)%nat
    /\ posts (get_top_posts_from_db world limit self).1.1 = returned.
Proof.
  intros Hposts.
  pose proof (get_top_posts_length world limit self returned Hposts) as Hlen.
  pose proof (get_top_posts_cases world limit self) as Hcases.
  rewrite get_top_posts_outcome in Hposts.
  destruct (query_top_notes world (keyword self) limit) as [rows|] eqn:Hq; [|done].
  exists rows. rewrite Hposts in Hcases. rewrite Hcases. simpl.
  apply posts_of_rows_returns in Hposts as (new & -> & Hnew). simpl in *.
  repeat split; try done.
  - clear Hlen Hcases Hq. induction Hnew as [|row post rows new Hpost _ IH]; [done|].
    rewrite !fmap_cons, IH. f_equal. by apply post_of_row_returns in Hpost as [? _].
  - by eapply query_top_notes_sorted.
Qed.

(** X3 at the records 5 and 12abc and a store that converts the leading
    digits: the post of 12abc comes first, with the liked count 0. *)
Lemma posts_in_store_order_witness :
  let world :=
    local_world (Returns (NotText "NoneType"))
      [record "烤肉" "n1" (Some "5") (Some "http://a");
       record "烤肉" "n2" (Some "12abc") (Some "http://b")] in
  let post id l img :=
    {| note_id := Some id; title := Some "title"; desc := Some "desc";
       liked_count := l; comment_count := 3; collected_count := 0;
       image_list := [img]; note_url := Some "post"; nickname := Some "nick" |} in
  let returned := [post "n2" 0 "http://b"; post "n1" 5 "http://a"] in
  liked_count <$> returned = [0; 5]
  /\ exists rows,
       query_top_notes world "烤肉" 100 = Returns rows
       /\ note_id <$> returned = row_note_id <$> rows
       /\ StronglySorted
            (descending (fun r => Z.of_N (cast_unsigned world
                                            (default EmptyString (row_liked_count r)))))
            rows
       /\ (length returned <= Z.to_nat 100)%nat
       /\ posts (get_top_posts_from_db world 100 (new_generator "烤肉")).1.1 = returned.
Proof.
  intros world post returned. split; [reflexivity|].
  apply (posts_in_store_order world 100 (new_generator "烤肉") returned). reflexivity.
Defined.

Section ConversionFacts.
Variable world : World.

(** A conversion that raises: the ValueError of int on a counter that is
    a str, not empty. *)
Lemma int_or_0_raises (v : option string) (e : exc) :
  int_or_0 world v = Raises e ->
  exists s, v = Some s /\ s <> EmptyString /\ int_of_str world s = None
            /\ e = Exc ValueError (int_error world s).
Proof.
  unfold int_or_0. destruct v as [s|]; [|done].
  destruct s as [|a s]; [done|]. simpl.
  destruct (int_of_str world (String a s)) eqn:Hint; [done|].
  intros [= <-]. by exists (String a s).
Qed.

Lemma post_of_row_raises (row : Row) (e : exc) :
  post_of_row world row = Raises e ->
  exc_class_of e = ValueError
  /\ (int_or_0 world (row_comment_count row) = Raises e
      \/ int_or_0 world (row_collected_count row) = Raises e).
Proof.
  unfold post_of_row. rewrite liked_count_of_value.
  destruct (int_or_0 world (row_comment_count row)) as [|e1] eqn:H1.
  - destruct (int_or_0 world (row_collected_count row)) as [|e2] eqn:H2; [done|].
    intros [= <-]. split; [|by right].
    by destruct (int_or_0_raises _ _ H2) as (s & _ & _ & _ & ->).
  - intros [= <-]. split; [|by left].
    by destruct (int_or_0_raises _ _ H1) as (s & _ & _ & _ & ->).
Qed.

Lemma posts_of_rows_raises (rows : list Row) (acc : list RestaurantPost) (e : exc) :
  posts_of_rows world rows acc = Raises e ->
  exists row, row ∈ rows /\ post_of_row world row = Raises e.
Proof.
  revert acc. induction rows as [|row rows IH]; intros acc; simpl; [done|].
  destruct (post_of_row world row) as [post|e'] eqn:Hrow.
  - intros (r & Hr & He)%IH. exists r. split; [by right | done].
  - intros [= <-]. exists row. split; [by left | done].
Qed.

End ConversionFacts.

(** X16. get_top_posts_from_db returns a list exactly when the comment
    count and the collected count of every row of the query convert. One
    row with a counter on which int raises, wherever it stands, makes
    the method raise the ValueError of that conversion: no post is
    returned and the generator keeps the posts it had. *)
Theorem one_unreadable_counter_loses_the_posts (world : World) (limit : Z)
    (self : Generator) (rows : list Row) :
  query_top_notes world (keyword self) limit = Returns rows ->
  ((exists returned, (get_top_posts_from_db world limit self).2 = Returns returned)
   <-> Forall (fun row =>
                 (exists z, int_or_0 world (row_comment_count row) = Returns z)
                 /\ exists z, int_or_0 world (row_collected_count row) = Returns z)
         rows)
  /\ (forall e, (get_top_posts_from_db world limit self).2 = Raises e ->
        exc_class_of e = ValueError
        /\ (exists row s,
              row ∈ rows
              /\ (row_comment_count row = Some s \/ row_collected_count row = Some s)
              /\ s <> EmptyString
              /\ int_of_str world s = None
              /\ e = Exc ValueError (int_error world s))
        /\ (get_top_posts_from_db world limit self).1.1 = self).
Proof.
  intros Hq.
  pose proof (get_top_posts_cases world limit self) as Hcases.
  rewrite get_top_posts_outcome, Hq. rewrite Hq in Hcases. split.
  - split.
    + intros [posts (new & _ & Hnew)%posts_of_rows_returns].
      apply Forall_forall. intros row Hrow.
      apply list_elem_of_lookup in Hrow as [i Hi].
      destruct (Forall2_lookup_l _ _ _ _ _ Hnew Hi) as (post & _ & Hpost).
      unfold post_of_row in Hpost. rewrite liked_count_of_value in Hpost.
      destruct (int_or_0 world (row_comment_count row)) as [z1|]; [|done].
      destruct (int_or_0 world (row_collected_count row)) as [z2|]; [|done].
      split; by eexists.
    + intros Hall.
      assert (exists posts,
                Forall2 (fun row post => post_of_row world row = Returns post) rows posts)
        as [posts Hposts].
      { clear Hq Hcases. induction Hall as [|row rows [Hc1 Hc2] _ [posts IH]].
        - by exists [].
        - destruct (post_of_row_total world row Hc1 Hc2) as [post Hpost].
          exists (post :: posts). by constructor. }
      exists posts. apply posts_of_rows_returns. by exists posts.
  - intros e He. rewrite He in Hcases. rewrite Hcases. simpl.
    apply posts_of_rows_raises in He as (row & Hrow & He).
    apply post_of_row_raises in He as [Hclass Hcounter].
    split; [done|]. split; [|done].
    destruct Hcounter as [Hc|Hc];
      destruct (int_or_0_raises _ _ _ Hc) as (s & Hs & Hne & Hint & ->);
      exists row, s; auto 10.
Qed.

(** X16 at two rows of which the second has the collected count 1.5k. *)
Lemma one_unreadable_counter_witness :
  let bad :=
    {| row_source_keyword := Some "烤肉"; row_note_id := Some "n2";
       row_title := Some "title"; row_desc := Some "desc";
       row_liked_count := Some "7"; row_comment_count := Some "3";
       row_collected_count := Some "1.5k"; row_image_list := Some "http://b";
       row_note_url := Some "post"; row_nickname := Some "nick" |} in
  let table := [record "烤肉" "n1" (Some "12") (Some "http://a"); bad] in
  let world := local_world (Returns (NotText "NoneType")) table in
  let e := Exc ValueError "invalid literal for int() with base 10: '1.5k'" in
  exc_class_of e = ValueError
  /\ (exists row s,
        row ∈ table
        /\ (row_comment_count row = Some s \/ row_collected_count row = Some s)
        /\ s <> EmptyString
        /\ int_of_str world s = None
        /\ e = Exc ValueError (int_error world s))
  /\ (get_top_posts_from_db world 100 (new_generator "烤肉")).1.1 = new_generator "烤肉".
Proof.
  intros bad table world e.
  apply (proj2 (one_unreadable_counter_loses_the_posts world 100 (new_generator "烤肉")
                  table eq_refl)).
  reflexivity.
Defined.

(** ** What the request of the selection shows *)

Lemma occurs_in_refl (s : string) : occurs_in s s.
Proof.
  exists EmptyString, EmptyString. simpl.
  induction s as [|a s IH]; [done|].
  change (String a s = String a (s +:+ EmptyString)). by f_equal.
Qed.

Lemma occurs_in_app_l (w s t : string) : occurs_in w s -> occurs_in w (s +:+ t).
Proof.
  intros (b & a & ->). exists b, (a +:+ t). by rewrite !string_app_assoc.
Qed.

Lemma occurs_in_app_r (w s t : string) : occurs_in w t -> occurs_in w (s +:+ t).
Proof.
  intros (b & a & ->). exists (s +:+ b), a. by rewrite !string_app_assoc.
Qed.

(** A piece of a joined text stands in it. *)
Lemma occurs_in_join (sep w : string) (pieces : list string) (piece : string) :
  piece ∈ pieces -> occurs_in w piece -> occurs_in w (PyStr.join sep pieces).
Proof.
  unfold PyStr.join. intros Hpiece Hw.
  induction pieces as [|x pieces IH]; [by apply elem_of_nil in Hpiece|].
  apply elem_of_cons in Hpiece as [<-|Hpiece].
  - destruct pieces as [|y pieces]; [done|]. simpl. by apply occurs_in_app_l.
  - destruct pieces as [|y pieces]; [by apply elem_of_nil in Hpiece|].
    change (String.concat sep (x :: y :: pieces))
      with (x +:+ sep +:+ String.concat sep (y :: pieces)).
    apply occurs_in_app_r, occurs_in_app_r. by apply IH.
Qed.

(** The lines of a candidate stand among the formatted lines. *)
Lemma candidate_lines_formatted (candidates : list Candidate) (c : Candidate) (i : Z)
    (formatted : list string) :
  formatted_candidates i candidates = Returns formatted ->
  c ∈ candidates ->
  exists k lines, candidate_lines k c = Returns lines /\ lines ⊆ formatted.
Proof.
  revert i formatted. induction candidates as [|d candidates IH];
    intros i formatted Hformatted Hc; [by apply elem_of_nil in Hc|].
  simpl in Hformatted.
  destruct (candidate_lines i d) as [lines|] eqn:Hlines; [|done].
  simpl in Hformatted.
  destruct (formatted_candidates (i + 1) candidates) as [more|] eqn:Hmore; [|done].
  injection Hformatted as <-.
  apply elem_of_cons in Hc as [->|Hc].
  - exists i, lines. split; [done|]. intros line Hline. apply elem_of_app. by left.
  - destruct (IH (i + 1) more Hmore Hc) as (k & ls & Hk & Hls).
    exists k, ls. split; [done|]. intros line Hline. apply elem_of_app. right.
    by apply Hls.
Qed.

(** X17. The request of the selection, when it is built, names the
    keyword and shows, for each of the first thirty candidates, its URL,
    the title of its post as the f-string renders it, the liked count
    and the first hundred characters of the description. It is not
    built exactly when one of these candidates has no description. *)
Theorem selection_prompt_shows_the_candidates (image_candidates : list Candidate)
    (keyword : string) (num_images : Z) :
  match selection_prompt image_candidates keyword num_images with
  | Returns request =>
      occurs_in keyword request
      /\ forall c, c ∈ take 30 image_candidates ->
           occurs_in (url c) request
           /\ occurs_in (PyStr.format (post_title c)) request
           /\ occurs_in (PyStr.of_int (cand_liked_count c)) request
           /\ exists d, post_desc c = Some d
                        /\ occurs_in (PyStr.take_chars 100 d) request
  | Raises e =>
      e = not_subscriptable
      /\ exists c, c ∈ take 30 image_candidates /\ post_desc c = None
  end.
Proof.
  pose proof (selection_prompt_cases image_candidates keyword num_images) as Hcases.
  destruct (selection_prompt image_candidates keyword num_images)
    as [request|e] eqn:Hrequest; [|done].
  unfold selection_prompt, _format_image_candidates_for_ai in Hrequest.
  destruct (formatted_candidates 1 (take 30 image_candidates))
    as [formatted|] eqn:Hformatted; [|done].
  cbv [mbind outcome_bind mret outcome_ret] in Hrequest.
  apply (f_equal (fun r => match r with Returns text => text | Raises _ => request end))
    in Hrequest.
  cbv beta iota in Hrequest. subst request. split.
  - eapply occurs_in_join; [apply elem_of_cons; right; apply elem_of_cons; by left|].
    apply occurs_in_app_r, occurs_in_app_l, occurs_in_refl.
  - intros c Hc.
    destruct (candidate_lines_formatted _ c 1 formatted Hformatted Hc)
      as (k & lines & Hlines & Hk).
    unfold candidate_lines in Hlines.
    destruct (post_desc c) as [d|] eqn:Hd; [|done].
    simpl in Hlines. injection Hlines as <-.
    assert (forall w line,
              line ∈ [ PyStr.of_int k +:+ ". URL: " +:+ url c;
                       "   帖子标题: " +:+ PyStr.format (post_title c);
                       "   点赞数: " +:+ PyStr.of_int (cand_liked_count c);
                       "   描述片段: " +:+ PyStr.take_chars 100 d +:+ "...";
                       EmptyString ] ->
              occurs_in w line ->
              occurs_in w
                (PyStr.join PyStr.NL
                   [ EmptyString;
                     "        作为美食图片分析专家，请从以下图片候选列表中筛选出最适合"
                       +:+ keyword +:+ "主题的" +:+ PyStr.of_int num_images
                       +:+ "张图片。";
                     EmptyString;
                     "        筛选标准：";
                     "        1. 图片内容与" +:+ keyword +:+ "高度相关";
                     "        2. 图片质量高，构图美观";
                     "        3. 能体现食物的色香味";
                     "        4. 适合在大众点评等美食平台展示";
                     "        5. 图片来源帖子的点赞数较高";
                     EmptyString;
                     "        候选图片信息：";
                     "        " +:+ PyStr.join PyStr.NL formatted;
                     EmptyString;
                     "        请直接返回筛选出的图片URL列表，每行一个URL，不需要其他解释。";
                     "        " ])) as Hshow.
    { intros w line Hline Hw.
      eapply occurs_in_join.
      - do 11 (apply elem_of_cons; right). apply elem_of_cons. by left.
      - apply occurs_in_app_r.
        eapply occurs_in_join; [by apply Hk | done]. }
    split; [|split; [|split]].
    + eapply Hshow; [by left|].
      apply occurs_in_app_r, occurs_in_app_r, occurs_in_refl.
    + eapply Hshow; [right; by left|]. apply occurs_in_app_r, occurs_in_refl.
    + eapply Hshow; [right; right; by left|]. apply occurs_in_app_r, occurs_in_refl.
    + exists d. split; [done|].
      eapply Hshow; [right; right; right; by left|].
      apply occurs_in_app_r, occurs_in_app_l, occurs_in_refl.
Qed.
